(** * drasl: account, session and key core

    A shallow embedding of [config.go] (configuration defaults and the
    signing-key life cycle) and [front.go] (the browser-facing account
    handlers), with the properties of the natural-language specification
    stated over it.

    [ReadOrCreateConfig] (TOML decoding) and [FrontRoot] with the template
    renderer (page rendering) are left out: no property below depends on
    them.

    Conventions.
    - A Go [error] value is [option error]: [None] is [nil].
    - A Go [(T, error)] result is [error + T].
    - [sql.NullString] is [option string].
    - Everything the program does not control (the clock, the random source,
      remote downloads, failures of the asset store) is read from an explicit
      [Oracle]; everything it changes (the user table, the asset store, the
      response being written) lives in an explicit [World]. *)

From Stdlib Require Import ZArith Strings.Ascii Strings.Byte.
From stdpp Require Import gmap strings list.

Open Scope string_scope.
Open Scope list_scope.
Open Scope Z_scope.

(** ** Go values *)

Inductive error : Type :=
  | ErrRecordNotFound            (* gorm.ErrRecordNotFound *)
  | ErrUniqueFailed              (* a UNIQUE constraint of the storage engine failed *)
  | ErrNotExist                  (* os: the file does not exist *)
  | ErrPermission                (* os: permission denied *)
  | ErrOther (msg : string).     (* any other failure *)

#[global] Instance error_eq_dec : EqDecision error.
Proof. solve_decision. Defined.

#[global] Instance byte_eq_dec : EqDecision byte := Byte.byte_eq_dec.

Abbreviation bytes := (list byte).

(** [bytes.Equal]. *)
Definition bytes_Equal (a b : bytes) : bool := bool_decide (a = b).

(** ** config.go *)

Module Cfg.

Record rateLimitConfig := {
  rl_Enable : bool;
  RequestsPerSecond : Z
}.

Record bodySizeLimitConfig := {
  bs_Enable : bool;
  SizeLimit : string
}.

Record FallbackAPIServer := {
  fb_Nickname : string;
  fb_SessionURL : string;
  fb_AccountURL : string;
  SkinDomain : string
}.

Record anonymousLoginConfig := {
  al_Allow : bool;
  UsernameRegex : string;
  Password : string
}.

Record registrationNewPlayerConfig := {
  Allow : bool;
  AllowChoosingUUID : bool
}.

Record registrationExistingPlayerConfig := {
  re_Allow : bool;
  re_Nickname : string;
  re_SessionURL : string;
  re_AccountURL : string;
  SetSkinURL : string;
  RequireSkinVerification : bool
}.

(** [front.go] reads [app.Config.FrontEndServer.URL]; the declaration of that
    section is not part of [config.go], only its use is visible. *)
Record frontEndServerConfig := {
  URL : string
}.

Record Config := {
  InstanceName : string;
  StateDirectory : string;
  DataDirectory : string;
  ApplicationOwner : string;
  Domain : string;
  BaseURL : string;
  ListenAddress : string;
  RateLimit : rateLimitConfig;
  BodySize : bodySizeLimitConfig;
  SignPublicKeys : bool;
  DisableTokenExpiry : bool;
  LogRequests : bool;
  HideListenAddress : bool;
  DefaultPreferredLanguage : string;
  SkinSizeLimit : Z;
  AllowChangingPlayerName : bool;
  MinPasswordLength : Z;
  SkinForwarding : bool;
  FallbackAPIServers : list FallbackAPIServer;
  AnonymousLogin : anonymousLoginConfig;
  RegistrationNewPlayer : registrationNewPlayerConfig;
  RegistrationExistingPlayer : registrationExistingPlayerConfig;
  FrontEndServer : frontEndServerConfig
}.

Definition defaultRateLimitConfig : rateLimitConfig :=
  {| rl_Enable := true; RequestsPerSecond := 10 |}.

(** Fields the Go literal leaves out take their zero value. *)
Definition DefaultConfig : Config := {|
  InstanceName := "Drasl";
  Domain := "drasl.example.com";
  StateDirectory := "/var/lib/drasl";
  DataDirectory := "/usr/share/drasl";
  ApplicationOwner := "Unmojang";
  BaseURL := "https://drasl.example.com";
  ListenAddress := "0.0.0.0:9090";
  RateLimit := defaultRateLimitConfig;
  BodySize := {| bs_Enable := false; SizeLimit := "" |};
  LogRequests := true;
  SignPublicKeys := false;
  DefaultPreferredLanguage := "en";
  SkinSizeLimit := 128;
  AllowChangingPlayerName := true;
  HideListenAddress := false;
  SkinForwarding := true;
  MinPasswordLength := 1;
  DisableTokenExpiry := false;
  FallbackAPIServers := [
    {| fb_Nickname := "Mojang";
       fb_SessionURL := "https://sessionserver.mojang.com";
       fb_AccountURL := "https://api.mojang.com";
       SkinDomain := "" |} ];
  AnonymousLogin :=
    {| al_Allow := false; UsernameRegex := ""; Password := "" |};
  RegistrationNewPlayer :=
    {| Allow := true; AllowChoosingUUID := false |};
  RegistrationExistingPlayer :=
    {| re_Allow := true;
       re_Nickname := "Mojang";
       re_SessionURL := "https://sessionserver.mojang.com";
       re_AccountURL := "https://api.mojang.com";
       SetSkinURL := "https://www.minecraft.net/msaprofile/mygames/editskin";
       RequireSkinVerification := true |};
  FrontEndServer := {| URL := "" |}
|}.

(** The same configuration with another registration policy or another
    default language. *)
Definition with_RegistrationNewPlayer
    (p : registrationNewPlayerConfig) (c : Config) : Config :=
  {| InstanceName := InstanceName c;
     StateDirectory := StateDirectory c;
     DataDirectory := DataDirectory c;
     ApplicationOwner := ApplicationOwner c;
     Domain := Domain c;
     BaseURL := BaseURL c;
     ListenAddress := ListenAddress c;
     RateLimit := RateLimit c;
     BodySize := BodySize c;
     SignPublicKeys := SignPublicKeys c;
     DisableTokenExpiry := DisableTokenExpiry c;
     LogRequests := LogRequests c;
     HideListenAddress := HideListenAddress c;
     DefaultPreferredLanguage := DefaultPreferredLanguage c;
     SkinSizeLimit := SkinSizeLimit c;
     AllowChangingPlayerName := AllowChangingPlayerName c;
     MinPasswordLength := MinPasswordLength c;
     SkinForwarding := SkinForwarding c;
     FallbackAPIServers := FallbackAPIServers c;
     AnonymousLogin := AnonymousLogin c;
     RegistrationNewPlayer := p;
     RegistrationExistingPlayer := RegistrationExistingPlayer c;
     FrontEndServer := FrontEndServer c |}.

Definition with_DefaultPreferredLanguage
    (lang : string) (c : Config) : Config :=
  {| InstanceName := InstanceName c;
     StateDirectory := StateDirectory c;
     DataDirectory := DataDirectory c;
     ApplicationOwner := ApplicationOwner c;
     Domain := Domain c;
     BaseURL := BaseURL c;
     ListenAddress := ListenAddress c;
     RateLimit := RateLimit c;
     BodySize := BodySize c;
     SignPublicKeys := SignPublicKeys c;
     DisableTokenExpiry := DisableTokenExpiry c;
     LogRequests := LogRequests c;
     HideListenAddress := HideListenAddress c;
     DefaultPreferredLanguage := lang;
     SkinSizeLimit := SkinSizeLimit c;
     AllowChangingPlayerName := AllowChangingPlayerName c;
     MinPasswordLength := MinPasswordLength c;
     SkinForwarding := SkinForwarding c;
     FallbackAPIServers := FallbackAPIServers c;
     AnonymousLogin := AnonymousLogin c;
     RegistrationNewPlayer := RegistrationNewPlayer c;
     RegistrationExistingPlayer := RegistrationExistingPlayer c;
     FrontEndServer := FrontEndServer c |}.

End Cfg.

Import Cfg.

(** ** The file system seen by the key manager *)

Module OS.

(** A regular file: its contents and its permission bits. *)
Record file := {
  data : bytes;
  mode : Z
}.

Abbreviation fs := (gmap string file).

(** Owner-read is bit 8 (0400), owner-write is bit 7 (0200). *)
Definition readable (f : file) : bool := Z.testbit (mode f) 8.
Definition writable (f : file) : bool := Z.testbit (mode f) 7.

(** [os.ReadFile]. *)
Definition ReadFile (s : fs) (p : string) : error + bytes :=
  match s !! p with
  | None => inl ErrNotExist
  | Some f => if readable f then inr (data f) else inl ErrPermission
  end.

(** [os.WriteFile]: creates the file with [perm] when it is missing;
    truncates and rewrites an existing one, whose mode is left as it was,
    provided it may be written. Only a write refused at opening is modelled,
    and it leaves the files as they were; a write that breaks off half-way,
    leaving a truncated file, is not, so nothing is stated here about the
    files after a failed write. *)
Definition WriteFile (s : fs) (p : string) (d : bytes) (perm : Z)
  : option error * fs :=
  match s !! p with
  | None => (None, <[p := {| data := d; mode := perm |}]> s)
  | Some f =>
      if writable f
      then (None, <[p := {| data := d; mode := mode f |}]> s)
      else (Some ErrPermission, s)
  end.

(** [path.Join] of a directory and a file name, for directories written
    without a trailing slash. *)
Definition path_Join (dir name : string) : string := dir +:+ "/" +:+ name.

End OS.

(** ** Key manager ([ReadOrCreateKey], [KeyB3Sum512]) *)

Module KeyManager.
Import OS.

(** The cryptographic libraries the key manager calls: [crypto/x509] and
    [lukechampine.com/blake3]. A PKCS#8 blob may hold a key that is not an RSA
    key; [ForeignKey] stands for those. *)
Class Crypto := {
  PrivateKey : Type;
  ForeignKey : Type;
  MarshalPKCS8PrivateKey : PrivateKey → error + bytes;
  ParsePKCS8PrivateKey : bytes → error + (PrivateKey + ForeignKey);
  Sum512 : bytes → bytes
}.

(** What a start of the process sees from outside: the result of creating the
    state directory and of drawing a fresh RSA key of the given size. *)
Record Oracle `{Crypto} := {
  MkdirAll : string → option error;
  GenerateKey : Z → error + PrivateKey
}.

(** How a function called during startup ends. *)
Inductive startup (A : Type) : Type :=
  | Started (a : A)
  | Fatal (e : error)       (* [log.Fatal]: the process exits *)
  | Panic.                  (* a failed type assertion *)
Arguments Started {A} a.
Arguments Fatal {A} e.
Arguments Panic {A}.

(** Startup code runs over the file system and may stop the process. *)
Definition boot (A : Type) : Type := fs → startup A * fs.

#[global] Instance boot_ret : MRet boot := λ A a s, (Started a, s).
#[global] Instance boot_bind : MBind boot := λ A B f m s,
  match m s with
  | (Started a, s') => f a s'
  | (Fatal e, s') => (Fatal e, s')
  | (Panic, s') => (Panic, s')
  end.

(** Modelled from the spec: [Check], the helper every startup step is passed
    through, is not in the source files at hand; "failure is fatal at startup
    ... aborts process startup (no degraded mode)". A non-nil error stops the
    process, a nil one lets it go on. *)
Definition Check (err : option error) : boot () := λ s,
  match err with
  | Some e => (Fatal e, s)
  | None => (Started (), s)
  end.

(** [v, err := f(); Check(err)] for a call returning a value and an error. *)
Definition Checked {A} (r : error + A) : boot A := λ s,
  match r with
  | inl e => (Fatal e, s)
  | inr a => (Started a, s)
  end.

Definition os_ReadFile (p : string) : boot (error + bytes) := λ s,
  (Started (ReadFile s p), s).

Definition os_WriteFile (p : string) (d : bytes) (perm : Z)
  : boot (option error) := λ s,
  let '(err, s') := WriteFile s p d perm in (Started err, s').

(** The type assertion of the decoded key to an RSA private key. *)
Definition assert_rsa `{Crypto} (k : PrivateKey + ForeignKey)
  : boot PrivateKey := λ s,
  match k with
  | inl rsa => (Started rsa, s)
  | inr _ => (Panic, s)
  end.

Section WithCrypto.
Context `{Crypto}.

Definition key_path (config : Config) : string :=
  path_Join (StateDirectory config) "key.pkcs8".

Definition KeyB3Sum512 (key : PrivateKey) : startup bytes :=
  match MarshalPKCS8PrivateKey key with
  | inl e => Fatal e
  | inr der => Started (Sum512 der)
  end.

Definition ReadOrCreateKey (config : Config) (o : Oracle) : boot PrivateKey :=
  Check (MkdirAll o (StateDirectory config)) ;;
  let path := key_path config in
  r ← os_ReadFile path ;
  match r with
  | inr der =>
      key ← Checked (ParsePKCS8PrivateKey der) ;
      assert_rsa key
  | inl _ =>
      key ← Checked (GenerateKey o 4096) ;
      der ← Checked (MarshalPKCS8PrivateKey key) ;
      err ← os_WriteFile path der 384 (* 0600 *) ;
      Check err ;;
      mret key
  end.

End WithCrypto.

(** A small instance to run the key manager on: a key is the byte string of
    its own encoding, an empty blob does not decode, and a blob that starts
    with byte 00 holds a key of another kind. *)
Definition demo_crypto : Crypto := {|
  PrivateKey := bytes;
  ForeignKey := bytes;
  MarshalPKCS8PrivateKey := λ k,
    match k with
    | [] => inl (ErrOther "unsupported key")
    | x00 :: _ => inl (ErrOther "unsupported key")
    | _ => inr k
    end;
  ParsePKCS8PrivateKey := λ d,
    match d with
    | [] => inl (ErrOther "malformed PKCS#8")
    | x00 :: _ => inr (inr d)
    | _ => inr (inl d)
    end;
  Sum512 := λ d, rev d
|}.

Definition demo_oracle (k : bytes) : @Oracle demo_crypto :=
  @Build_Oracle demo_crypto (λ _, None) (λ _, inr k).

Definition pem_path : string := "/var/lib/drasl/key.pkcs8".

(** A key file the owner may write but not read (mode 0200). *)
Definition write_only_fs : fs :=
  {[ pem_path := {| data := [x30; x01]; mode := 128 |} ]}.

End KeyManager.

(** ** The account record and its table *)

Module Model.

Record TokenPair := {
  ClientToken : string;
  AccessToken : string;
  Valid : bool
}.

(** Modelled from the spec: the declaration of [User] is not in the source
    files at hand. The fields are the ones [front.go] reads and writes, with
    the meaning section 3 of the specification gives the Account: optional
    references are present-or-absent values. *)
Record User := {
  UUID : string;
  Username : string;
  PasswordSalt : bytes;
  PasswordHash : bytes;
  TokenPairs : list TokenPair;
  PlayerName : string;
  PreferredLanguage : string;
  SkinModel : string;
  BrowserToken : option string;
  SkinHash : option string;
  CapeHash : option string
}.

(** Modelled from the spec: the constant [SkinModelClassic] is declared
    outside the source files at hand; the skin model is the enumerated variant
    "classic | slim". *)
Definition SkinModelClassic : string := "classic".

(** Assignments to one field of the record held by the handler. *)
Definition set_PlayerName (v : string) (u : User) : User :=
  {| UUID := UUID u; Username := Username u;
     PasswordSalt := PasswordSalt u; PasswordHash := PasswordHash u;
     TokenPairs := TokenPairs u; PlayerName := v;
     PreferredLanguage := PreferredLanguage u; SkinModel := SkinModel u;
     BrowserToken := BrowserToken u; SkinHash := SkinHash u;
     CapeHash := CapeHash u |}.

Definition set_PreferredLanguage (v : string) (u : User) : User :=
  {| UUID := UUID u; Username := Username u;
     PasswordSalt := PasswordSalt u; PasswordHash := PasswordHash u;
     TokenPairs := TokenPairs u; PlayerName := PlayerName u;
     PreferredLanguage := v; SkinModel := SkinModel u;
     BrowserToken := BrowserToken u; SkinHash := SkinHash u;
     CapeHash := CapeHash u |}.

Definition set_PasswordSalt (v : bytes) (u : User) : User :=
  {| UUID := UUID u; Username := Username u;
     PasswordSalt := v; PasswordHash := PasswordHash u;
     TokenPairs := TokenPairs u; PlayerName := PlayerName u;
     PreferredLanguage := PreferredLanguage u; SkinModel := SkinModel u;
     BrowserToken := BrowserToken u; SkinHash := SkinHash u;
     CapeHash := CapeHash u |}.

Definition set_PasswordHash (v : bytes) (u : User) : User :=
  {| UUID := UUID u; Username := Username u;
     PasswordSalt := PasswordSalt u; PasswordHash := v;
     TokenPairs := TokenPairs u; PlayerName := PlayerName u;
     PreferredLanguage := PreferredLanguage u; SkinModel := SkinModel u;
     BrowserToken := BrowserToken u; SkinHash := SkinHash u;
     CapeHash := CapeHash u |}.

Definition set_SkinModel (v : string) (u : User) : User :=
  {| UUID := UUID u; Username := Username u;
     PasswordSalt := PasswordSalt u; PasswordHash := PasswordHash u;
     TokenPairs := TokenPairs u; PlayerName := PlayerName u;
     PreferredLanguage := PreferredLanguage u; SkinModel := v;
     BrowserToken := BrowserToken u; SkinHash := SkinHash u;
     CapeHash := CapeHash u |}.

Definition set_BrowserToken (v : option string) (u : User) : User :=
  {| UUID := UUID u; Username := Username u;
     PasswordSalt := PasswordSalt u; PasswordHash := PasswordHash u;
     TokenPairs := TokenPairs u; PlayerName := PlayerName u;
     PreferredLanguage := PreferredLanguage u; SkinModel := SkinModel u;
     BrowserToken := v; SkinHash := SkinHash u;
     CapeHash := CapeHash u |}.

Definition set_SkinHash (v : option string) (u : User) : User :=
  {| UUID := UUID u; Username := Username u;
     PasswordSalt := PasswordSalt u; PasswordHash := PasswordHash u;
     TokenPairs := TokenPairs u; PlayerName := PlayerName u;
     PreferredLanguage := PreferredLanguage u; SkinModel := SkinModel u;
     BrowserToken := BrowserToken u; SkinHash := v;
     CapeHash := CapeHash u |}.

Definition set_CapeHash (v : option string) (u : User) : User :=
  {| UUID := UUID u; Username := Username u;
     PasswordSalt := PasswordSalt u; PasswordHash := PasswordHash u;
     TokenPairs := TokenPairs u; PlayerName := PlayerName u;
     PreferredLanguage := PreferredLanguage u; SkinModel := SkinModel u;
     BrowserToken := BrowserToken u; SkinHash := SkinHash u;
     CapeHash := v |}.

(** Modelled from the spec: [MakeNullString] and [UnmakeNullString] are
    declared outside the source files at hand. They convert between a
    nullable string pointer and [sql.NullString]; with optional fields
    modelled "as explicit optional/absent-or-present values" both are the
    identity on [option string]. *)
Definition MakeNullString (s : option string) : option string := s.
Definition UnmakeNullString (s : option string) : option string := s.

End Model.

Import Model.

(** ** The storage collaborator *)

Module Storage.

(** The rows of the user table, in insertion order. *)
Abbreviation table := (list User).

Definition same_row (u v : User) : bool := bool_decide (UUID u = UUID v).

(** Two present session tokens that are equal. A row without a token (NULL)
    clashes with nothing. *)
Definition same_token (a b : option string) : bool :=
  match a, b with
  | Some x, Some y => bool_decide (x = y)
  | _, _ => false
  end.

(** Modelled from the spec: the uniqueness constraints are declared with the
    [User] record, outside the source files at hand. "username and playerName
    are unique across all accounts (storage-enforced uniqueness constraint)";
    "sessionToken, when present, uniquely identifies at most one account
    (storage-enforced uniqueness)". [clash u v] says that [u] cannot be stored
    next to a different row [v]. *)
Definition clash (u v : User) : bool :=
  bool_decide (Username u = Username v)
  || bool_decide (PlayerName u = PlayerName v)
  || same_token (BrowserToken u) (BrowserToken v).

(** [DB.First(&user, cond)]: the first row satisfying the condition. Under
    the table invariant [wf] below, at most one row satisfies the conditions
    the handlers use, so the order of the scan does not matter. *)
Definition First (cond : User → bool) (t : table) : error + User :=
  match List.find cond t with
  | Some u => inr u
  | None => inl ErrRecordNotFound
  end.

(** [DB.Create(&user)]. *)
Definition Create (u : User) (t : table) : option error * table :=
  if existsb (λ v, same_row u v || clash u v) t
  then (Some ErrUniqueFailed, t)
  else (None, t ++ [u]).

(** [DB.Save(&user)]: rewrites every column of the row with the record's
    primary key, and inserts the record when there is no such row. *)
Definition Save (u : User) (t : table) : option error * table :=
  if existsb (same_row u) t
  then
    if existsb (λ v, negb (same_row u v) && clash u v) t
    then (Some ErrUniqueFailed, t)
    else (None, (λ v, if same_row u v then u else v) <$> t)
  else Create u t.

(** [DB.Delete(&user)]: removes the row with the record's primary key. *)
Definition Delete (u : User) (t : table) : table :=
  List.filter (λ v, negb (same_row u v)) t.

(** The conditions the handlers look rows up by. A NULL column matches no
    value. *)
Definition by_username (name : string) (u : User) : bool :=
  bool_decide (Username u = name).
Definition by_browser_token (tok : string) (u : User) : bool :=
  bool_decide (BrowserToken u = Some tok).

(** The table invariant the constraints maintain: distinct rows differ in
    primary key, username, player name, and session token when present. *)
Definition distinct (u v : User) : Prop :=
  same_row u v = false ∧ clash u v = false.

Inductive wf : table → Prop :=
  | wf_nil : wf []
  | wf_cons u t : Forall (distinct u) t → wf t → wf (u :: t).

End Storage.

(** ** Requests, responses and the handler monad *)

Module Web.
Import Storage.

Record Cookie := {
  Name : string;
  Value : string;
  Expires : option Z        (* seconds since the epoch; [None] when unset *)
}.

(** An uploaded file; [Open] is what opening it yields. *)
Record FileHeader := {
  Open : error + bytes
}.

(** What [echo.Context] lets a handler read. *)
Record Request := {
  Form : gmap string string;
  Cookies : gmap string string;
  Files : gmap string FileHeader
}.

(** [c.FormValue]: the empty string when the field is missing. *)
Definition FormValue (c : Request) (k : string) : string :=
  default "" (Form c !! k).

(** [c.Cookie]: [None] stands for [http.ErrNoCookie]. *)
Definition Cookie_of (c : Request) (k : string) : option string :=
  Cookies c !! k.

(** [c.FormFile]: [None] stands for [http.ErrMissingFile]. *)
Definition FormFile (c : Request) (k : string) : option FileHeader :=
  Files c !! k.

Definition StatusSeeOther : Z := 303.
Definition StatusBadRequest : Z := 400.

(** What a handler does to the outside, in the order it does it. *)
Inductive Event : Type :=
  | EvSetCookie (k : Cookie)
  | EvRedirect (code : Z) (url : string)
  | EvString (code : Z) (body : string)
  | EvNoContent (code : Z)
  | EvCreate (u : User)
  | EvSave (u : User)
  | EvDelete (u : User)
  | EvSetSkin (hash : string)
  | EvSetCape (hash : string)
  | EvDeleteSkin (hash : string)
  | EvDeleteCape (hash : string).

(** The state a handler runs over: the user table, the two content-addressed
    blob stores, and the trace of the effects so far. *)
Record World := {
  DB : table;
  Skins : gmap string bytes;
  Capes : gmap string bytes;
  Trace : list Event
}.

Definition with_DB (t : table) (w : World) : World :=
  {| DB := t; Skins := Skins w; Capes := Capes w; Trace := Trace w |}.
Definition with_Skins (m : gmap string bytes) (w : World) : World :=
  {| DB := DB w; Skins := m; Capes := Capes w; Trace := Trace w |}.
Definition with_Capes (m : gmap string bytes) (w : World) : World :=
  {| DB := DB w; Skins := Skins w; Capes := m; Trace := Trace w |}.
Definition log (e : Event) (w : World) : World :=
  {| DB := DB w; Skins := Skins w; Capes := Capes w;
     Trace := Trace w ++ [e] |}.

(** One step of a handler body either goes on with a value or leaves the
    handler with the error it returns ([None] is a nil error). *)
Inductive step (A : Type) : Type :=
  | Next (a : A)
  | Return (err : option error).
Arguments Next {A} a.
Arguments Return {A} err.

Definition handler (A : Type) : Type := World → step A * World.

#[global] Instance handler_ret : MRet handler := λ A a w, (Next a, w).
#[global] Instance handler_bind : MBind handler := λ A B f m w,
  match m w with
  | (Next a, w') => f a w'
  | (Return err, w') => (Return err, w')
  end.

(** [return err]. *)
Definition Ret {A} (err : option error) : handler A := λ w, (Return err, w).

(** [return f(...)] for a call that yields the error to return. *)
Definition RetM {A} (m : handler (option error)) : handler A :=
  err ← m ; Ret err.

(** [v, err := f(...); if err != nil { return err }]. *)
Definition orReturn {A} (r : error + A) : handler A :=
  match r with
  | inl e => Ret (Some e)
  | inr a => mret a
  end.

(** A handler body always ends in a return. *)
Definition run (m : handler Empty_set) (w : World) : option error * World :=
  match m w with
  | (Return err, w') => (err, w')
  | (Next a, _) => match a with end
  end.

Definition emit (e : Event) : handler () := λ w, (Next (), log e w).

Definition c_SetCookie (k : Cookie) : handler () := emit (EvSetCookie k).
Definition c_Redirect (code : Z) (url : string) : handler (option error) :=
  emit (EvRedirect code url) ;; mret None.
Definition c_String (code : Z) (body : string) : handler (option error) :=
  emit (EvString code body) ;; mret None.
Definition c_NoContent (code : Z) : handler (option error) :=
  emit (EvNoContent code) ;; mret None.

Definition db_First (cond : User → bool) : handler (error + User) := λ w,
  (Next (First cond (DB w)), w).
Definition db_Create (u : User) : handler (option error) := λ w,
  let '(err, t) := Create u (DB w) in (Next err, log (EvCreate u) (with_DB t w)).
Definition db_Save (u : User) : handler (option error) := λ w,
  let '(err, t) := Save u (DB w) in (Next err, log (EvSave u) (with_DB t w)).
Definition db_Delete (u : User) : handler () := λ w,
  (Next (), log (EvDelete u) (with_DB (Delete u (DB w)) w)).

(** The [Error()] text of an error value. *)
Definition error_Error (e : error) : string :=
  match e with
  | ErrRecordNotFound => "record not found"
  | ErrUniqueFailed => "UNIQUE constraint failed"
  | ErrNotExist => "file does not exist"
  | ErrPermission => "permission denied"
  | ErrOther msg => msg
  end.

(** [rand.Read] into a buffer of [n] bytes: the random source either fails or
    fills the whole buffer. *)
Definition rand_Read (src : error + (nat → byte)) (n : nat) : error + bytes :=
  match src with
  | inl e => inl e
  | inr f => inr (f <$> seq 0 n)
  end.

Definition hex_digit (n : N) : ascii :=
  default "0"%char (String.get (N.to_nat n) "0123456789abcdef").

(** [hex.EncodeToString]. *)
Fixpoint hex_encode (bs : bytes) : string :=
  match bs with
  | [] => ""
  | b :: rest =>
      String (hex_digit (Byte.to_N b / 16))
        (String (hex_digit (Byte.to_N b mod 16)) (hex_encode rest))
  end.

(** Modelled from the spec: [RandomHex] is not in the source files at hand; a
    session token is "32 random bytes, hex-encoded". *)
Definition RandomHex (src : error + (nat → byte)) (n : nat) : error + string :=
  match rand_Read src n with
  | inl e => inl e
  | inr bs => inr (hex_encode bs)
  end.

(** [m] keeps the user table well formed. *)
Definition keeps_wf {A} (m : handler A) : Prop :=
  ∀ w, wf (DB w) → wf (DB (m w).2).

End Web.

(** ** front.go *)

Module Front.
Import Storage Web.

Record App := {
  Config : Cfg.Config
}.

(** The functions of the repository that [front.go] calls and that live
    outside the source files at hand. The handlers are stated for any such
    functions. *)
Class Helpers := {
  IsValidPlayerName : string → bool;
  IsValidPreferredLanguage : string → bool;
  IsValidPassword : string → bool;
  IsValidSkinModel : string → bool;
  HashPassword : string → bytes → error + bytes;
  ValidateSkin : App → bytes → error + bytes;
  ValidateCape : App → bytes → error + bytes;
  IsErrorUniqueFailed : option error → bool;
  ContentHash : bytes → string
}.

(** What one request meets from outside the program. *)
Record Oracle := {
  time_Now : Z;                               (* [time.Now()], in seconds *)
  uuid_New : string;                          (* [uuid.New().String()] *)
  salt_entropy : error + (nat → byte);        (* [rand.Read] for the salt *)
  token_entropy : error + (nat → byte);       (* [rand.Read] in [RandomHex] *)
  http_Get : string → error + bytes;          (* [http.Get], body read *)
  SetSkin_fault : option error;
  SetCape_fault : option error;
  DeleteSkin_fault : option error;
  DeleteCape_fault : option error
}.

Definition hours (n : Z) : Z := n * 3600.

(** Set an error message cookie. *)
Definition setErrorMessage (message : string) : handler () :=
  c_SetCookie {| Name := "errorMessage"; Value := message; Expires := None |}.

(** The cookie that clears the session on the client: a name and nothing
    else. *)
Definition clearBrowserToken : Cookie :=
  {| Name := "browserToken"; Value := ""; Expires := None |}.

Section Handlers.
Context `{Helpers}.
Variable app : App.
Variable o : Oracle.

Definition frontURL : string := URL (FrontEndServer (Config app)).

(** Modelled from the spec: the asset pipeline is outside the source files at
    hand. "store(validImage) -> hash: computes the content hash of the
    canonical image bytes; if a blob with that hash already exists in the
    store, no new write occurs (dedup); otherwise the bytes are written keyed
    by hash"; "setOnAccount(account, kind, hash): assigns skinHash/capeHash on
    the in-memory account record; ... The pipeline never persists the account
    itself". A failure of the pipeline comes from the oracle and leaves the
    store and the record as they were. *)
Definition store (img : bytes) (m : gmap string bytes) : gmap string bytes :=
  match m !! ContentHash img with
  | Some _ => m
  | None => <[ContentHash img := img]> m
  end.

(** Modelled from the spec: [SetSkin] is [store] followed by [setOnAccount]
    for the skin. *)
Definition SetSkin (user : User) (img : bytes) : handler (option error * User) :=
  λ w,
  match SetSkin_fault o with
  | Some e => (Next (Some e, user), log (EvSetSkin (ContentHash img)) w)
  | None =>
      (Next (None, set_SkinHash (Some (ContentHash img)) user),
       log (EvSetSkin (ContentHash img)) (with_Skins (store img (Skins w)) w))
  end.

(** Modelled from the spec: [SetCape] is [store] followed by [setOnAccount]
    for the cape. *)
Definition SetCape (user : User) (img : bytes) : handler (option error * User) :=
  λ w,
  match SetCape_fault o with
  | Some e => (Next (Some e, user), log (EvSetCape (ContentHash img)) w)
  | None =>
      (Next (None, set_CapeHash (Some (ContentHash img)) user),
       log (EvSetCape (ContentHash img)) (with_Capes (store img (Capes w)) w))
  end.

(** Modelled from the spec: "delete(hash): removes the blob keyed by hash from
    the store; intentionally simple: it performs no cross-account reference
    check"; "pipeline errors deleting blobs are surfaced as errors". *)
Definition DeleteSkin (hash : string) : handler (option error) := λ w,
  match DeleteSkin_fault o with
  | Some e => (Next (Some e), log (EvDeleteSkin hash) w)
  | None =>
      (Next None, log (EvDeleteSkin hash) (with_Skins (delete hash (Skins w)) w))
  end.

(** Modelled from the spec: [DeleteCape] is [delete] on the cape store. *)
Definition DeleteCape (hash : string) : handler (option error) := λ w,
  match DeleteCape_fault o with
  | Some e => (Next (Some e), log (EvDeleteCape hash) w)
  | None =>
      (Next None, log (EvDeleteCape hash) (with_Capes (delete hash (Capes w)) w))
  end.

(** Authenticate a user using the [browserToken] cookie, and call [f] with
    the user. *)
Definition withBrowserAuthentication
    (f : Request → User → handler Empty_set) (c : Request)
  : handler Empty_set :=
  match Cookie_of c "browserToken" with
  | None => RetM (c_Redirect StatusSeeOther frontURL)
  | Some value =>
      if bool_decide (value = "")
      then RetM (c_Redirect StatusSeeOther frontURL)
      else
        result ← db_First (by_browser_token value) ;
        match result with
        | inl ErrRecordNotFound =>
            c_SetCookie clearBrowserToken ;;
            RetM (c_Redirect StatusSeeOther frontURL)
        | inl _ =>
            (* [return err]: the error of the cookie lookup, nil here *)
            Ret None
        | inr user => f c user
        end
  end.

(** POST /update *)
Definition FrontUpdate : Request → handler Empty_set :=
  withBrowserAuthentication (λ c user,
    let playerName := FormValue c "playerName" in
    let password := FormValue c "password" in
    let preferredLanguage := FormValue c "preferredLanguage" in
    let skinModel := FormValue c "skinModel" in
    let skinURL := FormValue c "skinUrl" in
    let capeURL := FormValue c "capeUrl" in
    (if negb (IsValidPlayerName playerName)
     then
       setErrorMessage
         "Player name must be between 1 and 16 characters (inclusive)." ;;
       RetM (c_Redirect StatusSeeOther frontURL)
     else mret ()) ;;
    let user := set_PlayerName playerName user in
    (if negb (IsValidPreferredLanguage preferredLanguage)
     then
       setErrorMessage "Invalid preferred language." ;;
       RetM (c_Redirect StatusSeeOther frontURL)
     else mret ()) ;;
    let user := set_PreferredLanguage preferredLanguage user in
    user ←
      (if negb (bool_decide (password = ""))
       then
         (if negb (IsValidPassword password)
          then setErrorMessage "Invalid password."
          else mret ()) ;;
         passwordSalt ← orReturn (rand_Read (salt_entropy o) 16) ;
         let user := set_PasswordSalt passwordSalt user in
         passwordHash ← orReturn (HashPassword password passwordSalt) ;
         mret (set_PasswordHash passwordHash user)
       else mret user) ;
    (if negb (IsValidSkinModel skinModel)
     then RetM (c_NoContent StatusBadRequest)
     else mret ()) ;;
    let user := set_SkinModel skinModel user in
    user ←
      match FormFile c "skinFile" with
      | Some skinFile =>
          skinHandle ← orReturn (Open skinFile) ;
          match ValidateSkin app skinHandle with
          | inl err =>
              setErrorMessage ("Error using that skin: " +:+ error_Error err) ;;
              RetM (c_Redirect StatusSeeOther frontURL)
          | inr validSkinHandle =>
              r ← SetSkin user validSkinHandle ;
              match r with
              | (Some err, _) => Ret (Some err)
              | (None, user) => mret user
              end
          end
      | None =>
          if negb (bool_decide (skinURL = ""))
          then
            match http_Get o skinURL with
            | inl _ =>
                setErrorMessage "Couldn't download skin from that URL." ;;
                RetM (c_Redirect StatusSeeOther frontURL)
            | inr res_Body =>
                match ValidateSkin app res_Body with
                | inl err =>
                    setErrorMessage
                      ("Error using that skin: " +:+ error_Error err) ;;
                    RetM (c_Redirect StatusSeeOther frontURL)
                | inr validSkinHandle =>
                    r ← SetSkin user validSkinHandle ;
                    match r with
                    | (Some _, _) => Ret None
                    | (None, user) => mret user
                    end
                end
            end
          else mret user
      end ;
    user ←
      match FormFile c "capeFile" with
      | Some capeFile =>
          capeHandle ← orReturn (Open capeFile) ;
          match ValidateCape app capeHandle with
          | inl err =>
              setErrorMessage ("Error using that cape: " +:+ error_Error err) ;;
              RetM (c_Redirect StatusSeeOther frontURL)
          | inr validCapeHandle =>
              r ← SetCape user validCapeHandle ;
              match r with
              | (Some err, _) => Ret (Some err)
              | (None, user) => mret user
              end
          end
      | None =>
          if negb (bool_decide (capeURL = ""))
          then
            match http_Get o capeURL with
            | inl _ =>
                setErrorMessage "Couldn't download cape from that URL." ;;
                RetM (c_Redirect StatusSeeOther frontURL)
            | inr res_Body =>
                match ValidateCape app res_Body with
                | inl err =>
                    setErrorMessage
                      ("Error using that cape: " +:+ error_Error err) ;;
                    RetM (c_Redirect StatusSeeOther frontURL)
                | inr validCapeHandle =>
                    r ← SetCape user validCapeHandle ;
                    match r with
                    | (Some _, _) => Ret None
                    | (None, user) => mret user
                    end
                end
            end
          else mret user
      end ;
    err ← db_Save user ;
    match err with
    | Some e =>
        if IsErrorUniqueFailed err
        then
          setErrorMessage "That player name is taken." ;;
          RetM (c_Redirect StatusSeeOther frontURL)
        else Ret (Some e)
    | None => RetM (c_Redirect StatusSeeOther frontURL)
    end).

(** POST /logout *)
Definition FrontLogout : Request → handler Empty_set :=
  withBrowserAuthentication (λ c user,
    c_SetCookie clearBrowserToken ;;
    let user := set_BrowserToken (MakeNullString None) user in
    db_Save user ;;
    RetM (c_Redirect StatusSeeOther frontURL)).

(** POST /register *)
Definition FrontRegister (c : Request) : handler Empty_set :=
  let username := FormValue c "username" in
  let password := FormValue c "password" in
  (if bool_decide (username = "")
   then RetM (c_String StatusBadRequest "Username cannot be blank!")
   else mret ()) ;;
  (if bool_decide (password = "")
   then RetM (c_String StatusBadRequest "Password cannot be blank!")
   else mret ()) ;;
  let uuid := uuid_New o in
  passwordSalt ← orReturn (rand_Read (salt_entropy o) 16) ;
  passwordHash ← orReturn (HashPassword password passwordSalt) ;
  browserToken ← orReturn (RandomHex (token_entropy o) 32) ;
  (* past the three checks above, [err] holds nil *)
  let err : option error := None in
  let user := {|
    UUID := uuid;
    Username := username;
    PasswordSalt := passwordSalt;
    PasswordHash := passwordHash;
    TokenPairs := [];
    PlayerName := username;
    PreferredLanguage := "en";
    SkinModel := SkinModelClassic;
    BrowserToken := MakeNullString (Some browserToken);
    SkinHash := None;
    CapeHash := None
  |} in
  result ← db_Create user ;
  match result with
  | Some result_Error =>
      (* the error tested is [err], not [result.Error] *)
      if IsErrorUniqueFailed err
      then
        setErrorMessage "That username is taken." ;;
        RetM (c_Redirect StatusSeeOther frontURL)
      else Ret (Some result_Error)
  | None =>
      c_SetCookie {| Name := "browserToken";
                     Value := browserToken;
                     Expires := Some (time_Now o + hours 24) |} ;;
      RetM (c_Redirect StatusSeeOther frontURL)
  end.

(** The record [FrontRegister] builds. *)
Definition registered (c : Request) (salt hash : bytes) (tok : string) : User :=
  {| UUID := uuid_New o;
     Username := FormValue c "username";
     PasswordSalt := salt;
     PasswordHash := hash;
     TokenPairs := [];
     PlayerName := FormValue c "username";
     PreferredLanguage := "en";
     SkinModel := SkinModelClassic;
     BrowserToken := Some tok;
     SkinHash := None;
     CapeHash := None |}.

(** POST /login *)
Definition FrontLogin (c : Request) : handler Empty_set :=
  let username := FormValue c "username" in
  let password := FormValue c "password" in
  result ← db_First (by_username username) ;
  match result with
  | inl ErrRecordNotFound =>
      setErrorMessage "User not found!" ;;
      RetM (c_Redirect StatusSeeOther frontURL)
  | inl result_Error => Ret (Some result_Error)
  | inr user =>
      passwordHash ← orReturn (HashPassword password (PasswordSalt user)) ;
      (if negb (bytes_Equal passwordHash (PasswordHash user))
       then
         setErrorMessage "Incorrect password!" ;;
         RetM (c_Redirect StatusSeeOther frontURL)
       else mret ()) ;;
      browserToken ← orReturn (RandomHex (token_entropy o) 32) ;
      c_SetCookie {| Name := "browserToken";
                     Value := browserToken;
                     Expires := Some (time_Now o + hours 24) |} ;;
      let user := set_BrowserToken (MakeNullString (Some browserToken)) user in
      db_Save user ;;
      RetM (c_Redirect StatusSeeOther frontURL)
  end.

(** POST /delete-account *)
Definition FrontDeleteAccount : Request → handler Empty_set :=
  withBrowserAuthentication (λ c user,
    c_SetCookie clearBrowserToken ;;
    let oldSkinHash := UnmakeNullString (SkinHash user) in
    let oldCapeHash := UnmakeNullString (CapeHash user) in
    db_Delete user ;;
    match oldSkinHash with
    | Some hash => err ← DeleteSkin hash ;
                   match err with Some e => Ret (Some e) | None => mret () end
    | None => mret ()
    end ;;
    match oldCapeHash with
    | Some hash => err ← DeleteCape hash ;
                   match err with Some e => Ret (Some e) | None => mret () end
    | None => mret ()
    end ;;
    RetM (c_Redirect StatusSeeOther frontURL)).


(** What the password step of [FrontUpdate] writes to the response: the
    notice for a non-empty password that is not valid. *)
Definition password_notice (c : Request) : list Event :=
  if negb (bool_decide (FormValue c "password" = ""))
     && negb (IsValidPassword (FormValue c "password"))
  then [EvSetCookie {| Name := "errorMessage";
                       Value := "Invalid password.";
                       Expires := None |}]
  else [].

(** The password step of [FrontUpdate] is passed: no password was
    submitted, or the salt was drawn and the hash computed. *)
Definition password_accepted (c : Request) : Prop :=
  FormValue c "password" = ""
  ∨ (FormValue c "password" ≠ ""
     ∧ ∃ salt hash,
         rand_Read (salt_entropy o) 16 = inr salt
         ∧ HashPassword (FormValue c "password") salt = inr hash).

(** The skin step of [FrontUpdate] is passed: no skin was submitted
    ([None]), or the image [img] came from an upload or from a URL, was
    validated, and was taken by the asset store. *)
Definition skin_accepted (c : Request) (skin : option bytes) : Prop :=
  match skin with
  | None => FormFile c "skinFile" = None ∧ FormValue c "skinUrl" = ""
  | Some img =>
      SetSkin_fault o = None
      ∧ ((∃ skinFile body,
            FormFile c "skinFile" = Some skinFile
            ∧ Open skinFile = inr body
            ∧ ValidateSkin app body = inr img)
         ∨ (FormFile c "skinFile" = None
            ∧ FormValue c "skinUrl" ≠ ""
            ∧ ∃ body,
                http_Get o (FormValue c "skinUrl") = inr body
                ∧ ValidateSkin app body = inr img))
  end.

End Handlers.
End Front.

(** ** A concrete instance to run the handlers on *)

Module Demo.
Import Storage Web Front.

(** Helper functions in the shape the error messages and the specification
    describe them: a player name of 1 to 16 characters, a password of at
    least four characters, the skin models "classic" and "slim", a password
    hash that is a function of password and salt, images that are valid when
    not empty, and the storage engine's uniqueness error recognised as
    such. *)
Definition helpers : Helpers := {|
  IsValidPlayerName := λ s,
    bool_decide (1 ≤ String.length s)%nat && bool_decide (String.length s ≤ 16)%nat;
  IsValidPreferredLanguage := λ s, bool_decide (s ∈ ["en"; "fr"; "de"]);
  IsValidPassword := λ s, bool_decide (4 ≤ String.length s)%nat;
  IsValidSkinModel := λ s, bool_decide (s ∈ ["classic"; "slim"]);
  HashPassword := λ p salt, inr (salt ++ String.list_byte_of_string p);
  ValidateSkin := λ _ img,
    match img with [] => inl (ErrOther "empty image") | _ => inr img end;
  ValidateCape := λ _ img,
    match img with [] => inl (ErrOther "empty image") | _ => inr img end;
  IsErrorUniqueFailed := λ e, bool_decide (e = Some ErrUniqueFailed);
  ContentHash := hex_encode
|}.

#[local] Existing Instance helpers.

Definition app_of (config : Cfg.Config) : App := {| Config := config |}.

(** The default configuration, served at a front-end URL. *)
Definition config : Cfg.Config :=
  {| InstanceName := InstanceName DefaultConfig;
     StateDirectory := StateDirectory DefaultConfig;
     DataDirectory := DataDirectory DefaultConfig;
     ApplicationOwner := ApplicationOwner DefaultConfig;
     Domain := Domain DefaultConfig;
     BaseURL := BaseURL DefaultConfig;
     ListenAddress := ListenAddress DefaultConfig;
     RateLimit := RateLimit DefaultConfig;
     BodySize := BodySize DefaultConfig;
     SignPublicKeys := SignPublicKeys DefaultConfig;
     DisableTokenExpiry := DisableTokenExpiry DefaultConfig;
     LogRequests := LogRequests DefaultConfig;
     HideListenAddress := HideListenAddress DefaultConfig;
     DefaultPreferredLanguage := DefaultPreferredLanguage DefaultConfig;
     SkinSizeLimit := SkinSizeLimit DefaultConfig;
     AllowChangingPlayerName := AllowChangingPlayerName DefaultConfig;
     MinPasswordLength := MinPasswordLength DefaultConfig;
     SkinForwarding := SkinForwarding DefaultConfig;
     FallbackAPIServers := FallbackAPIServers DefaultConfig;
     AnonymousLogin := AnonymousLogin DefaultConfig;
     RegistrationNewPlayer := RegistrationNewPlayer DefaultConfig;
     RegistrationExistingPlayer := RegistrationExistingPlayer DefaultConfig;
     FrontEndServer := {| URL := "https://drasl.example.com/" |} |}.

Definition closed_registration : registrationNewPlayerConfig :=
  {| Allow := false; AllowChoosingUUID := false |}.

(** An oracle in which nothing fails: the random source yields the byte
    [b] throughout. *)
Definition oracle (uuid : string) (b : byte) : Oracle := {|
  time_Now := 1700000000;
  uuid_New := uuid;
  salt_entropy := inr (λ _, b);
  token_entropy := inr (λ _, b);
  http_Get := λ url,
    if bool_decide (url = "https://skins.example.com/steve.png")
    then inr [x89; x50; x4e; x47]
    else inl (ErrOther "no such host");
  SetSkin_fault := None;
  SetCape_fault := None;
  DeleteSkin_fault := None;
  DeleteCape_fault := None
|}.

(** The same oracle with an asset store that fails. *)
Definition failing_assets (e : error) (o : Oracle) : Oracle := {|
  time_Now := time_Now o;
  uuid_New := uuid_New o;
  salt_entropy := salt_entropy o;
  token_entropy := token_entropy o;
  http_Get := http_Get o;
  SetSkin_fault := Some e;
  SetCape_fault := Some e;
  DeleteSkin_fault := Some e;
  DeleteCape_fault := Some e
|}.

Definition empty_world : World :=
  {| DB := []; Skins := ∅; Capes := ∅; Trace := [] |}.

Definition form (fields : list (string * string)) : Request :=
  {| Form := list_to_map fields; Cookies := ∅; Files := ∅ |}.

Definition with_session (tok : string) (c : Request) : Request :=
  {| Form := Form c; Cookies := <["browserToken" := tok]> (Cookies c);
     Files := Files c |}.

Definition credentials (username password : string) : Request :=
  form [("username", username); ("password", password)].

(** The world after [alice] registered with password [secret1]. *)
Definition alice_world : World :=
  (run (FrontRegister (app_of config) (oracle "uuid-alice" x61)
          (credentials "alice" "secret1")) empty_world).2.

(** The row that registration stored. *)
Definition alice : User :=
  {| UUID := "uuid-alice"; Username := "alice";
     PasswordSalt := repeat x61 16;
     PasswordHash := repeat x61 16 ++ String.list_byte_of_string "secret1";
     TokenPairs := [];
     PlayerName := "alice"; PreferredLanguage := "en";
     SkinModel := "classic";
     BrowserToken := Some (hex_encode (repeat x61 32));
     SkinHash := None; CapeHash := None |}.

(** The token of [alice]'s session, and a request that carries it. *)
Definition alice_token : string := hex_encode (repeat x61 32).

Definition signed_in (fields : list (string * string)) : Request :=
  with_session alice_token (form fields).

(** A profile update that changes nothing but the password, to one that is
    too short to be valid. *)
Definition short_password_update : Request :=
  signed_in [("playerName", "alice"); ("preferredLanguage", "en");
             ("password", "abc"); ("skinModel", "classic")].

(** Profile updates that name a URL for the skin, and for the cape. *)
Definition skin_url_update : Request :=
  signed_in [("playerName", "alice"); ("preferredLanguage", "en");
             ("skinModel", "classic");
             ("skinUrl", "https://skins.example.com/steve.png")].

Definition cape_url_update : Request :=
  signed_in [("playerName", "alice"); ("preferredLanguage", "en");
             ("skinModel", "classic");
             ("capeUrl", "https://skins.example.com/steve.png")].

Definition steve : bytes := [x89; x50; x4e; x47].



(** Forget the trace of the requests served so far. *)
Definition settled (w : World) : World :=
  {| DB := DB w; Skins := Skins w; Capes := Capes w; Trace := [] |}.

End Demo.

(** ** Loading the configuration ([ReadOrCreateConfig]) *)

Module ConfigLoader.
Import OS KeyManager.

(** The TOML library: encoding a configuration, and decoding a file into a
    configuration that already holds the defaults (keys the file leaves out
    keep the value they have). *)
Class Toml := {
  toml_Encode : Config → error + bytes;
  toml_Decode : bytes → Config → error + Config
}.

(** [os.Stat]: the file has to be there; it need not be readable. *)
Definition Stat (s : fs) (p : string) : option error :=
  match s !! p with
  | Some _ => None
  | None => Some ErrNotExist
  end.

(** [os.Create]: an empty file of mode 0666 when there is none; an existing
    file is truncated, if it may be written. *)
Definition Create (s : fs) (p : string) : option error * fs :=
  match s !! p with
  | None => (None, <[p := {| data := []; mode := 438 |}]> s)
  | Some f =>
      if writable f
      then (None, <[p := {| data := []; mode := mode f |}]> s)
      else (Some ErrPermission, s)
  end.

(** Writing through an open handle replaces the contents of the file. *)
Definition handle_write (s : fs) (p : string) (d : bytes) : fs :=
  alter (λ f, {| data := d; mode := mode f |}) p s.

Definition os_Stat (p : string) : boot (option error) := λ s,
  (Started (Stat s p), s).

Definition os_Create (p : string) : boot (option error) := λ s,
  let '(err, s') := Create s p in (Started err, s').

(** [toml.NewEncoder(f).Encode(config)]: on an encoding error nothing is
    written. *)
Definition toml_encode_to `{Toml} (p : string) (config : Config)
  : boot (option error) := λ s,
  match toml_Encode config with
  | inl e => (Started (Some e), s)
  | inr d => (Started None, handle_write s p d)
  end.

(** [toml.DecodeFile(path, &config)]. *)
Definition toml_DecodeFile `{Toml} (p : string) (config : Config)
  : boot (error + Config) := λ s,
  match ReadFile s p with
  | inl e => (Started (inl e), s)
  | inr d => (Started (toml_Decode d config), s)
  end.

Section WithToml.
Context `{Toml}.

Definition ReadOrCreateConfig (path : string) : boot Config :=
  let config := DefaultConfig in
  err ← os_Stat path ;
  match err with
  | Some _ =>
      (* File doesn't exist? Try to create it *)
      err ← os_Create path ;
      Check err ;;
      err ← toml_encode_to path config ;
      Check err
  | None => mret ()
  end ;;
  r ← toml_DecodeFile path config ;
  Checked r.

End WithToml.

(** A one-key TOML to run the loader on: the file holds the preferred
    language, and an empty file does not decode. *)
Definition demo_toml : Toml := {|
  toml_Encode := λ c,
    inr (String.list_byte_of_string (DefaultPreferredLanguage c));
  toml_Decode := λ d c,
    match d with
    | [] => inl (ErrOther "empty document")
    | _ => inr (with_DefaultPreferredLanguage (String.string_of_list_byte d) c)
    end
|}.

Definition toml_path : string := "/etc/drasl/config.toml".

(** A configuration file that asks for French. *)
Definition french_fs : fs :=
  {[ toml_path := {| data := String.list_byte_of_string "fr"; mode := 420 |} ]}.

End ConfigLoader.

(** ** More of front.go *)

Module FrontMore.
Import Storage Web Front.

(** Read and clear the error message cookie *)
Definition lastErrorMessage (c : Request) : handler string :=
  match Cookie_of c "errorMessage" with
  | None => mret ""
  | Some value =>
      if bool_decide (value = "")
      then mret ""
      else setErrorMessage "" ;; mret value
  end.

(** The browser's side of the cookies: the jar after the [Set-Cookie]
    headers of a response, and the next request sent with it. *)
Definition cookie_jar (evs : list Event) (jar : gmap string string)
  : gmap string string :=
  foldl (λ j e, match e with
                | EvSetCookie k => <[Name k := Value k]> j
                | _ => j
                end) jar evs.

Definition follow_up (c : Request) (evs : list Event) : Request :=
  {| Form := Form c; Cookies := cookie_jar evs (Cookies c);
     Files := Files c |}.

(** What identifies an account and its sessions: the columns no profile
    update is meant to touch. *)
Definition identity (u : User) : string * string * option string :=
  (UUID u, Username u, BrowserToken u).

(** The record without its session token. *)
Definition forget_token (u : User) : User := set_BrowserToken None u.

(** A step that leaves the user table alone and whose value, when it goes
    on, satisfies [Q]. *)
Definition quiet {A} (m : handler A) (Q : A → Prop) : Prop :=
  ∀ w, DB (m w).2 = DB w ∧ ∀ a, (m w).1 = Next a → Q a.

(** A handler body that writes the user table at most once, by saving a
    record that satisfies [Q]. *)
Definition saves_once (m : handler Empty_set) (Q : User → Prop) : Prop :=
  ∀ w, DB (m w).2 = DB w ∨ ∃ u, Q u ∧ DB (m w).2 = (Save u (DB w)).2.

(** A second account next to [alice]. *)
Definition bob : User :=
  {| UUID := "uuid-bob"; Username := "bob";
     PasswordSalt := repeat x62 16;
     PasswordHash := repeat x62 16 ++ String.list_byte_of_string "hunter2";
     TokenPairs := [];
     PlayerName := "bobby"; PreferredLanguage := "en";
     SkinModel := "slim";
     BrowserToken := None;
     SkinHash := None; CapeHash := None |}.

Definition two_accounts : World :=
  {| DB := [Demo.alice; bob]; Skins := ∅; Capes := ∅; Trace := [] |}.



Definition demo_app : App := Demo.app_of Demo.config.

(** A request that brings back an error message. *)
Definition message_request (msg : string) : Request :=
  {| Form := ∅; Cookies := {[ "errorMessage" := msg ]}; Files := ∅ |}.

(** Profile updates of [alice]: one that asks for a player name, one that
    names a skin URL nobody serves, and one whose uploaded skin cannot be
    opened. *)
Definition rename_update (name : string) : Request :=
  Demo.signed_in [("playerName", name); ("preferredLanguage", "en");
                  ("skinModel", "classic")].

Definition password_update : Request :=
  Demo.signed_in [("playerName", "alice"); ("preferredLanguage", "en");
                  ("password", "correct horse"); ("skinModel", "classic")].

Definition dead_url_update : Request :=
  Demo.signed_in [("playerName", "alice"); ("preferredLanguage", "en");
                  ("skinModel", "classic");
                  ("skinUrl", "https://nowhere.example.com/skin.png")].

Definition broken_upload : Request :=
  {| Form := Form (rename_update "alice");
     Cookies := Cookies (rename_update "alice");
     Files := {[ "skinFile" := {| Open := inl (ErrOther "unexpected EOF") |} ]} |}.

End FrontMore.

(** * Properties *)

(** ** The key manager *)

Module KeyFacts.
Import OS KeyManager.

Ltac boot_unfold :=
  unfold ReadOrCreateKey, Check, Checked, os_ReadFile, os_WriteFile,
    assert_rsa, mbind, boot_bind, mret, boot_ret.

Section WithCrypto.
Context `{Crypto}.

(** A file that reads but does not decode stops the start, and nothing is
    generated or written. *)
Lemma ReadOrCreateKey_undecodable config o s der e :
  MkdirAll o (StateDirectory config) = None →
  ReadFile s (key_path config) = inr der →
  ParsePKCS8PrivateKey der = inl e →
  ReadOrCreateKey config o s = (Fatal e, s).
Proof.
  intros Hdir Hread Hparse. boot_unfold.
  rewrite Hdir, Hread, Hparse. reflexivity.
Qed.

(** A file that reads and decodes to an RSA key is returned as it is. *)
Lemma ReadOrCreateKey_load config o s der k :
  MkdirAll o (StateDirectory config) = None →
  ReadFile s (key_path config) = inr der →
  ParsePKCS8PrivateKey der = inr (inl k) →
  ReadOrCreateKey config o s = (Started k, s).
Proof.
  intros Hdir Hread Hparse. boot_unfold.
  rewrite Hdir, Hread, Hparse. reflexivity.
Qed.

(** Whenever the read fails, for whatever reason, the create branch runs. *)
Lemma ReadOrCreateKey_create config o s e k der :
  MkdirAll o (StateDirectory config) = None →
  ReadFile s (key_path config) = inl e →
  GenerateKey o 4096 = inr k →
  MarshalPKCS8PrivateKey k = inr der →
  ReadOrCreateKey config o s =
    match WriteFile s (key_path config) der 384 with
    | (Some e', s') => (Fatal e', s')
    | (None, s') => (Started k, s')
    end.
Proof.
  intros Hdir Hread Hgen Hder. boot_unfold.
  rewrite Hdir, Hread, Hgen, Hder.
  destruct (WriteFile s (key_path config) der 384) as [[e'|] s']; reflexivity.
Qed.

(** A start that returns a key after a failed read has written that key's
    encoding at the key path. *)
Lemma ReadOrCreateKey_created_inv config o s e k s' :
  ReadFile s (key_path config) = inl e →
  ReadOrCreateKey config o s = (Started k, s') →
  ∃ der f, MarshalPKCS8PrivateKey k = inr der
         ∧ s' !! key_path config = Some f ∧ data f = der.
Proof.
  intros Hread. boot_unfold.
  destruct (MkdirAll o (StateDirectory config)); [discriminate|].
  rewrite Hread.
  destruct (GenerateKey o 4096) as [?|k0]; [discriminate|].
  destruct (MarshalPKCS8PrivateKey k0) as [?|der] eqn:Hder; [discriminate|].
  unfold WriteFile.
  destruct (s !! key_path config) as [f|] eqn:Hf.
  - destruct (writable f); [|discriminate].
    intros [= <- <-]. eexists _, _. split; [exact Hder|].
    rewrite lookup_insert_eq. done.
  - intros [= <- <-]. eexists _, _. split; [exact Hder|].
    rewrite lookup_insert_eq. done.
Qed.

(** C5, as amended. When a key file is present at the key path but cannot be
    read, the start draws a fresh key and tries to write it over the file:
    it stops with a fatal error when the file cannot be written either, and
    otherwise goes on with the fresh key, whose encoding replaces the
    contents of the file. *)
Theorem ReadOrCreateKey_unreadable config o s f k der :
  MkdirAll o (StateDirectory config) = None →
  s !! key_path config = Some f →
  readable f = false →
  GenerateKey o 4096 = inr k →
  MarshalPKCS8PrivateKey k = inr der →
  ReadOrCreateKey config o s =
    if writable f
    then (Started k,
          <[key_path config := {| data := der; mode := mode f |}]> s)
    else (Fatal ErrPermission, s).
Proof.
  intros Hdir Hf Hr Hgen Hder.
  rewrite (ReadOrCreateKey_create config o s ErrPermission k der); try done.
  - unfold WriteFile. rewrite Hf. by destruct (writable f).
  - unfold ReadFile. by rewrite Hf, Hr.
Qed.

(** C9. A key generated and written by one start is the key a later start
    loads when it finds the file, so both starts have one fingerprint. The
    hypothesis on the encoding is the contract of the x509 library: decoding
    what was encoded from a key gives that key back. *)
Theorem key_persistence_roundtrip config o1 o2 s s' k e :
  (∀ k0 der, MarshalPKCS8PrivateKey k0 = inr der →
             ParsePKCS8PrivateKey der = inr (inl k0)) →
  ReadFile s (key_path config) = inl e →
  ReadOrCreateKey config o1 s = (Started k, s') →
  MkdirAll o2 (StateDirectory config) = None →
  (∃ der, ReadFile s' (key_path config) = inr der) →
  ∃ k2 fp, ReadOrCreateKey config o2 s' = (Started k2, s')
         ∧ k2 = k
         ∧ KeyB3Sum512 k = Started fp
         ∧ KeyB3Sum512 k2 = Started fp.
Proof.
  intros Hx509 Hread Hfirst Hdir Hfound.
  destruct (ReadOrCreateKey_created_inv _ _ _ _ _ _ Hread Hfirst)
    as (der & f & Hder & Hf & Hdata).
  destruct Hfound as [der' Hfound].
  unfold ReadFile in Hfound. rewrite Hf in Hfound.
  destruct (readable f) eqn:Hr; [|discriminate].
  exists k, (Sum512 der). split; [|split; [done|]].
  - apply (ReadOrCreateKey_load config o2 s' der k); [done| |by apply Hx509].
    unfold ReadFile. by rewrite Hf, Hr, Hdata.
  - unfold KeyB3Sum512. by rewrite Hder.
Qed.

(** On a first start, with no file at the key path, the file written is
    readable by its owner: the next start finds it. *)
Lemma first_start_file_readable config o s k s' :
  s !! key_path config = None →
  ReadOrCreateKey config o s = (Started k, s') →
  ∃ f, s' !! key_path config = Some f ∧ readable f = true.
Proof.
  intros Hnone. boot_unfold.
  destruct (MkdirAll o (StateDirectory config)); [discriminate|].
  unfold ReadFile. rewrite Hnone.
  destruct (GenerateKey o 4096) as [?|k0]; [discriminate|].
  destruct (MarshalPKCS8PrivateKey k0) as [?|der]; [discriminate|].
  unfold WriteFile. rewrite Hnone.
  intros [= <- <-]. eexists. rewrite lookup_insert_eq. split; [done|].
  reflexivity.
Qed.

End WithCrypto.

(** C5, refuted as stated: with a key file present and unreadable, the start
    does not stop; it returns a fresh key and overwrites the file. *)
Lemma unreadable_key_file_not_fatal :
  ¬ (∀ (C : Crypto) (config : Config) (o : Oracle) (s : fs) (f : file),
       s !! key_path config = Some f →
       readable f = false →
       ∃ e, ReadOrCreateKey config o s = (Fatal e, s)).
Proof.
  intros Hclaim.
  destruct (Hclaim demo_crypto DefaultConfig (demo_oracle [x30; x82])
              write_only_fs {| data := [x30; x01]; mode := 128 |})
    as [e He]; [reflexivity|reflexivity|].
  apply (f_equal fst) in He. vm_compute in He. discriminate.
Qed.

Lemma ReadOrCreateKey_unreadable_witness :
  @ReadOrCreateKey demo_crypto DefaultConfig (demo_oracle [x30; x82])
      write_only_fs
  = (Started [x30; x82],
     <[pem_path := {| data := [x30; x82]; mode := 128 |}]> write_only_fs).
Proof.
  apply (@ReadOrCreateKey_unreadable demo_crypto DefaultConfig
           (demo_oracle [x30; x82]) write_only_fs
           {| data := [x30; x01]; mode := 128 |} [x30; x82] [x30; x82]);
    reflexivity.
Defined.

Lemma key_persistence_roundtrip_witness :
  ∃ k2 fp,
    @ReadOrCreateKey demo_crypto DefaultConfig (demo_oracle [x30; x99])
       {[ pem_path := {| data := [x30; x82]; mode := 384 |} ]}
    = (Started k2, {[ pem_path := {| data := [x30; x82]; mode := 384 |} ]})
    ∧ k2 = [x30; x82]
    ∧ @KeyB3Sum512 demo_crypto [x30; x82] = Started fp
    ∧ @KeyB3Sum512 demo_crypto k2 = Started fp.
Proof.
  apply (@key_persistence_roundtrip demo_crypto DefaultConfig
           (demo_oracle [x30; x82]) (demo_oracle [x30; x99])
           ∅ {[ pem_path := {| data := [x30; x82]; mode := 384 |} ]}
           [x30; x82] ErrNotExist).
  - intros [|b l] der; [discriminate|].
    destruct b; cbn; intros [= <-]; reflexivity.
  - reflexivity.
  - reflexivity.
  - reflexivity.
  - eexists. reflexivity.
Defined.

End KeyFacts.

(** ** The user table *)

Module StorageFacts.
Import Storage.

Lemma same_row_true u v : same_row u v = true ↔ UUID u = UUID v.
Proof. unfold same_row. apply bool_decide_eq_true. Qed.

Lemma same_row_false u v : same_row u v = false ↔ UUID u ≠ UUID v.
Proof. unfold same_row. apply bool_decide_eq_false. Qed.

Lemma same_token_sym a b : same_token a b = same_token b a.
Proof.
  destruct a, b; cbn; try done.
  apply bool_decide_ext. split; congruence.
Qed.

Lemma same_token_false a b :
  same_token a b = false ↔ ∀ x, a = Some x → b ≠ Some x.
Proof.
  destruct a as [x|], b as [y|]; cbn; try (split; [congruence|done]).
  rewrite bool_decide_eq_false. split.
  - intros Hne z [= <-] [= <-]. done.
  - intros Hall ->. by apply (Hall y).
Qed.

Lemma clash_false u v :
  clash u v = false ↔
    Username u ≠ Username v ∧ PlayerName u ≠ PlayerName v
    ∧ same_token (BrowserToken u) (BrowserToken v) = false.
Proof.
  unfold clash. rewrite !orb_false_iff, !bool_decide_eq_false. tauto.
Qed.

Lemma distinct_sym u v : distinct u v → distinct v u.
Proof.
  unfold distinct. rewrite !same_row_false, !clash_false.
  rewrite (same_token_sym (BrowserToken v)).
  intros (Hid & Hn & Hp & Ht). repeat split; congruence.
Qed.

Lemma distinct_ne u v : distinct u v → u ≠ v.
Proof.
  intros [Hrow _] ->. apply same_row_false in Hrow. done.
Qed.

(** In a well-formed table two rows are the same row or differ in every
    unique column. *)
Lemma wf_distinct t u v :
  wf t → u ∈ t → v ∈ t → u = v ∨ distinct u v.
Proof.
  induction 1 as [|x t Hx Hwf IH]; intros Hu Hv.
  - by apply elem_of_nil in Hu.
  - rewrite Forall_forall in Hx.
    apply elem_of_cons in Hu as [->|Hu], Hv as [->|Hv]; auto.
    right. apply distinct_sym. auto.
Qed.

Lemma wf_same_row t u v :
  wf t → u ∈ t → v ∈ t → UUID u = UUID v → u = v.
Proof.
  intros Hwf Hu Hv Hid.
  destruct (wf_distinct t u v Hwf Hu Hv) as [|[Hrow _]]; [done|].
  by apply same_row_false in Hrow.
Qed.

Lemma find_elem_of {A} (P : A → bool) l x :
  List.find P l = Some x → x ∈ l ∧ P x = true.
Proof. intros Hf. apply find_some in Hf. by rewrite list_elem_of_In. Qed.

Lemma find_None_elem_of {A} (P : A → bool) l :
  List.find P l = None ↔ ∀ x, x ∈ l → P x = false.
Proof.
  split.
  - intros Hf x Hx. apply (find_none P l Hf). by apply list_elem_of_In.
  - induction l as [|y l IH]; [done|]. intros Hall. cbn.
    rewrite (Hall y) by left. apply IH. intros x Hx. apply Hall. by right.
Qed.

(** The row the condition singles out is the one found. *)
Lemma find_unique {A} (P : A → bool) l x :
  x ∈ l → P x = true → (∀ y, y ∈ l → P y = true → y = x) →
  List.find P l = Some x.
Proof.
  intros Hx HP Huniq.
  destruct (List.find P l) as [y|] eqn:Hf.
  - apply find_elem_of in Hf as [Hy HPy]. f_equal. by apply Huniq.
  - rewrite find_None_elem_of in Hf. rewrite (Hf x Hx) in HP. done.
Qed.

Lemma existsb_false_elem_of {A} (P : A → bool) l :
  existsb P l = false ↔ ∀ x, x ∈ l → P x = false.
Proof.
  induction l as [|y l IH]; cbn.
  - split; [|done]. intros _ x Hx. by apply elem_of_nil in Hx.
  - rewrite orb_false_iff, IH. split.
    + intros [Hy Hl] x [->|Hx]%elem_of_cons; auto.
    + intros Hall. split; [apply Hall; left|intros x Hx; apply Hall; by right].
Qed.

Lemma existsb_true_elem_of {A} (P : A → bool) l :
  existsb P l = true ↔ ∃ x, x ∈ l ∧ P x = true.
Proof.
  rewrite existsb_exists. by setoid_rewrite list_elem_of_In.
Qed.

Lemma First_found cond t u :
  First cond t = inr u → u ∈ t ∧ cond u = true.
Proof.
  unfold First. destruct (List.find cond t) eqn:Hf; [|done].
  intros [= <-]. by apply find_elem_of.
Qed.

Lemma First_error cond t e :
  First cond t = inl e →
  e = ErrRecordNotFound ∧ ∀ v, v ∈ t → cond v = false.
Proof.
  unfold First. destruct (List.find cond t) eqn:Hf; [done|].
  intros [= <-]. split; [done|]. by apply find_None_elem_of.
Qed.


(** [Create] either appends the row or reports the constraint and leaves the
    table alone. *)
Lemma Create_ok u t t' :
  Create u t = (None, t') →
  t' = t ++ [u] ∧ ∀ v, v ∈ t → distinct u v.
Proof.
  unfold Create.
  destruct (existsb _ t) eqn:Hex; [done|]. intros [= <-]. split; [done|].
  rewrite existsb_false_elem_of in Hex. intros v Hv.
  specialize (Hex v Hv). apply orb_false_iff in Hex. done.
Qed.

Lemma Create_error u t e t' :
  Create u t = (Some e, t') → e = ErrUniqueFailed ∧ t' = t.
Proof.
  unfold Create. destruct (existsb _ t); [|done]. by intros [= <- <-].
Qed.

Lemma Create_username_taken u t v :
  v ∈ t → Username v = Username u →
  Create u t = (Some ErrUniqueFailed, t).
Proof.
  intros Hv Hname. unfold Create.
  rewrite (proj2 (existsb_true_elem_of _ t)); [done|].
  exists v. split; [done|]. unfold clash.
  rewrite (bool_decide_eq_true_2 (Username u = Username v)) by done.
  by rewrite orb_true_r.
Qed.

(** Saving a changed copy of a stored row that clashes with no other row
    rewrites that row in place. *)
Lemma Save_replace u t :
  (∃ v, v ∈ t ∧ UUID v = UUID u) →
  (∀ v, v ∈ t → UUID v ≠ UUID u → clash u v = false) →
  Save u t = (None, (λ v, if same_row u v then u else v) <$> t).
Proof.
  intros (v0 & Hv0 & Hid) Hfree. unfold Save.
  rewrite (proj2 (existsb_true_elem_of (same_row u) t)).
  2:{ exists v0. split; [done|]. by apply same_row_true. }
  rewrite (proj2 (existsb_false_elem_of _ t)); [done|].
  intros v Hv. destruct (same_row u v) eqn:Hrow; [done|]. cbn.
  apply Hfree; [done|]. apply same_row_false in Hrow. done.
Qed.

(** A record saved without error is in the table afterwards. *)
Lemma Save_ok_stored u t t' :
  Save u t = (None, t') → u ∈ t'.
Proof.
  unfold Save. destruct (existsb (same_row u) t) eqn:Hex.
  - destruct (existsb (λ v, negb _ && _) t); [done|]. intros [= <-].
    apply existsb_true_elem_of in Hex as (v & Hv & Hrow).
    apply list_elem_of_fmap. exists v. by rewrite Hrow.
  - intros [-> _]%Create_ok. apply elem_of_app. right. apply list_elem_of_singleton. done.
Qed.



(** The three writes keep the table well formed. *)
Lemma wf_app_one t u :
  wf t → (∀ v, v ∈ t → distinct u v) → wf (t ++ [u]).
Proof.
  induction 1 as [|x t Hx Hwf IH]; intros Hu; cbn.
  - constructor; [constructor|constructor].
  - constructor.
    + apply Forall_app. split; [done|].
      constructor; [|constructor]. apply distinct_sym, Hu. left.
    + apply IH. intros v Hv. apply Hu. by right.
Qed.

Lemma Create_wf u t err t' :
  wf t → Create u t = (err, t') → wf t'.
Proof.
  intros Hwf Hc. destruct err as [e|].
  - apply Create_error in Hc as [_ ->]. done.
  - apply Create_ok in Hc as [-> Hd]. by apply wf_app_one.
Qed.

Lemma Delete_wf u t : wf t → wf (Delete u t).
Proof.
  induction 1 as [|x t Hx Hwf IH]; cbn; [constructor|].
  destruct (negb (same_row u x)); [|done].
  constructor; [|done].
  rewrite Forall_forall in *. intros v Hv. apply Hx.
  unfold Delete in Hv. rewrite list_elem_of_In, filter_In in Hv.
  rewrite list_elem_of_In. tauto.
Qed.

Lemma wf_replace u t :
  wf t →
  (∀ v, v ∈ t → same_row u v = false → clash u v = false) →
  wf ((λ v, if same_row u v then u else v) <$> t).
Proof.
  induction 1 as [|x t Hx Hwf IH]; intros Hfree; cbn; [constructor|].
  constructor.
  - rewrite Forall_forall in *. intros v' Hv'.
    apply list_elem_of_fmap in Hv' as (v & -> & Hv).
    specialize (Hx v Hv). destruct Hx as [Hrow Hclash].
    rewrite same_row_false in Hrow.
    destruct (same_row u x) eqn:Hux, (same_row u v) eqn:Huv.
    + apply same_row_true in Hux, Huv. congruence.
    + split; [done|]. apply Hfree; [by right|done].
    + apply distinct_sym. split; [done|]. apply Hfree; [left|done].
    + split; [by apply same_row_false|done].
  - apply IH. intros v Hv. apply Hfree. by right.
Qed.

Lemma Save_wf u t err t' :
  wf t → Save u t = (err, t') → wf t'.
Proof.
  intros Hwf. unfold Save. destruct (existsb (same_row u) t).
  - destruct (existsb (λ v, negb _ && _) t) eqn:Hex; [by intros [= <- <-]|].
    intros [= <- <-]. apply wf_replace; [done|].
    rewrite existsb_false_elem_of in Hex. intros v Hv Hrow.
    specialize (Hex v Hv). by rewrite Hrow in Hex.
  - by apply Create_wf.
Qed.

End StorageFacts.

(** ** The handlers of front.go *)

Module FrontFacts.
Import Storage Web Front StorageFacts.

Ltac handler_unfold :=
  unfold run, FrontRegister, FrontLogin, FrontLogout, FrontUpdate,
    FrontDeleteAccount, withBrowserAuthentication, SetSkin, SetCape,
    DeleteSkin, DeleteCape, RetM, Ret, orReturn, c_Redirect, c_String,
    c_NoContent, c_SetCookie, setErrorMessage, emit, db_First, db_Create,
    db_Save, db_Delete, MakeNullString, UnmakeNullString,
    mbind, handler_bind, mret, handler_ret.

Lemma length_rand_Read src n bs : rand_Read src n = inr bs → length bs = n.
Proof.
  destruct src as [e|f]; [done|]. intros [= <-].
  by rewrite length_fmap, length_seq.
Qed.




Section WithHelpers.
Context `{Helpers}.
Variable app : App.
Variable o : Oracle.

(** *** Register *)

(** C1, as amended. The register flow does not consult the registration
    policy. What it does depends on the configuration through the front-end
    URL alone, and it stores an account exactly when username and password
    are not blank, the salt, the hash and the token are obtained, and the
    storage accepts the new row: whether new-player registration is allowed
    plays no part. *)
Theorem FrontRegister_ignores_policy (app' : App) c w :
  frontURL app' = frontURL app →
  run (FrontRegister app' o c) w = run (FrontRegister app o c) w
  ∧ (DB (run (FrontRegister app o c) w).2 ≠ DB w ↔
       FormValue c "username" ≠ "" ∧ FormValue c "password" ≠ ""
       ∧ ∃ salt hash tok,
           rand_Read (salt_entropy o) 16 = inr salt
           ∧ HashPassword (FormValue c "password") salt = inr hash
           ∧ RandomHex (token_entropy o) 32 = inr tok
           ∧ (Create (registered o c salt hash tok) (DB w)).1 = None).
Proof.
  intros Hurl. split.
  { unfold FrontRegister. rewrite Hurl. reflexivity. }
  handler_unfold. split.
  - case_bool_decide as Hu; [cbn; intros Hne; exfalso; by apply Hne|].
    case_bool_decide as Hp; [cbn; intros Hne; exfalso; by apply Hne|].
    cbn.
    destruct (rand_Read (salt_entropy o) 16) as [?|salt];
      [cbn; intros Hne; exfalso; by apply Hne|].
    destruct (HashPassword _ salt) as [?|hash] eqn:Hhash;
      [cbn; intros Hne; exfalso; by apply Hne|].
    destruct (RandomHex (token_entropy o) 32) as [?|tok];
      [cbn; intros Hne; exfalso; by apply Hne|].
    cbn. fold (registered o c salt hash tok).
    destruct (Create (registered o c salt hash tok) (DB w)) as [[e|] t] eqn:Hc.
    + apply Create_error in Hc as [_ ->]. cbn.
      destruct (IsErrorUniqueFailed None); cbn; intros Hne; exfalso; by apply Hne.
    + intros _. repeat split; try done.
      exists salt, hash, tok. by rewrite Hhash, Hc.
  - intros (Hu & Hp & salt & hash & tok & Hsalt & Hhash & Htok & Hc).
    rewrite (bool_decide_eq_false_2 _ Hu), (bool_decide_eq_false_2 _ Hp).
    cbn. rewrite Hsalt, Hhash, Htok. cbn.
    fold (registered o c salt hash tok).
    destruct (Create (registered o c salt hash tok) (DB w)) as [err t] eqn:Hc'.
    cbn in Hc. subst err. apply Create_ok in Hc' as [-> _]. cbn.
    intros Heq. apply (f_equal length) in Heq.
    rewrite length_app in Heq. cbn in Heq. lia.
Qed.

(** C7, as amended. A registration that stores an account stores one whose
    player name is the username, whose skin model is classic, whose preferred
    language is the literal "en", with the uuid drawn for the request (held
    by no earlier account), a salt of 16 random bytes, the hash of the
    password under that salt, and a session token that is also sent as the
    session cookie, expiring in 24 hours. *)
Theorem FrontRegister_success c w w' :
  run (FrontRegister app o c) w = (None, w') →
  DB w' ≠ DB w →
  ∃ salt hash tok,
    let u := registered o c salt hash tok in
    rand_Read (salt_entropy o) 16 = inr salt ∧ length salt = 16%nat
    ∧ HashPassword (FormValue c "password") salt = inr hash
    ∧ RandomHex (token_entropy o) 32 = inr tok
    ∧ FormValue c "username" ≠ "" ∧ FormValue c "password" ≠ ""
    ∧ (∀ v, v ∈ DB w → UUID v ≠ UUID u)
    ∧ DB w' = DB w ++ [u]
    ∧ Skins w' = Skins w ∧ Capes w' = Capes w
    ∧ Trace w' = Trace w ++
        [EvCreate u;
         EvSetCookie {| Name := "browserToken"; Value := tok;
                        Expires := Some (time_Now o + hours 24) |};
         EvRedirect StatusSeeOther (frontURL app)].
Proof.
  handler_unfold.
  case_bool_decide as Hu; [cbn; intros [= <-] Hne; by cbn in Hne|].
  case_bool_decide as Hp; [cbn; intros [= <-] Hne; by cbn in Hne|].
  cbn.
  destruct (rand_Read (salt_entropy o) 16) as [?|salt] eqn:Hsalt; [done|].
  destruct (HashPassword _ salt) as [?|hash] eqn:Hhash; [done|].
  destruct (RandomHex (token_entropy o) 32) as [?|tok] eqn:Htok; [done|].
  cbn. fold (registered o c salt hash tok).
  destruct (Create (registered o c salt hash tok) (DB w)) as [[e|] t] eqn:Hc.
  - apply Create_error in Hc as [_ ->]. cbn.
    destruct (IsErrorUniqueFailed None); cbn; [|done].
    intros [= <-] Hne. by cbn in Hne.
  - apply Create_ok in Hc as [-> Hd]. cbn. intros [= <-] _.
    exists salt, hash, tok. cbn.
    repeat split; try done.
    + by apply (length_rand_Read _ _ _ Hsalt).
    + intros v Hv. destruct (Hd v Hv) as [Hrow _].
      apply same_row_false in Hrow. cbn in Hrow. done.
    + by rewrite <- !app_assoc.
Qed.

(** C3, at the defect. When the username is taken, the create fails on the
    uniqueness constraint, and what the handler hands to
    [IsErrorUniqueFailed] is the nil error left by the token generation:
    unless that helper takes nil for a uniqueness failure, the storage error
    is returned as it came, and the "That username is taken." message is
    never set. *)
Theorem FrontRegister_conflict_unclassified c w salt hash tok v :
  FormValue c "username" ≠ "" →
  FormValue c "password" ≠ "" →
  rand_Read (salt_entropy o) 16 = inr salt →
  HashPassword (FormValue c "password") salt = inr hash →
  RandomHex (token_entropy o) 32 = inr tok →
  v ∈ DB w → Username v = FormValue c "username" →
  IsErrorUniqueFailed None = false →
  ∃ w', run (FrontRegister app o c) w = (Some ErrUniqueFailed, w')
      ∧ DB w' = DB w
      ∧ Trace w' = Trace w ++ [EvCreate (registered o c salt hash tok)].
Proof.
  intros Hu Hp Hsalt Hhash Htok Hv Hname Hnil.
  handler_unfold.
  rewrite (bool_decide_eq_false_2 _ Hu), (bool_decide_eq_false_2 _ Hp).
  cbn. rewrite Hsalt, Hhash, Htok. cbn.
  fold (registered o c salt hash tok).
  rewrite (Create_username_taken (registered o c salt hash tok) (DB w) v Hv Hname).
  cbn. rewrite Hnil. eexists. split; [reflexivity|]. done.
Qed.

End WithHelpers.

(** *** The table invariant along a handler *)

Lemma keeps_wf_mret {A} (a : A) : keeps_wf (mret a).
Proof. intros w Hwf. exact Hwf. Qed.

Lemma keeps_wf_bind {A B} (m : handler A) (f : A → handler B) :
  keeps_wf m → (∀ a, keeps_wf (f a)) → keeps_wf (m ≫= f).
Proof.
  intros Hm Hf w Hwf. unfold mbind, handler_bind.
  specialize (Hm w Hwf). destruct (m w) as [[a|err] w1]; cbn in *.
  - by apply Hf.
  - done.
Qed.

Lemma keeps_wf_Ret {A} err : keeps_wf (@Ret A err).
Proof. intros w Hwf. exact Hwf. Qed.

Lemma keeps_wf_RetM {A} m : keeps_wf m → keeps_wf (@RetM A m).
Proof.
  intros Hm. apply keeps_wf_bind; [done|]. intros a. apply keeps_wf_Ret.
Qed.

Lemma keeps_wf_orReturn {A} (r : error + A) : keeps_wf (orReturn r).
Proof. destruct r; [apply keeps_wf_Ret|apply keeps_wf_mret]. Qed.

Lemma keeps_wf_emit e : keeps_wf (emit e).
Proof. intros w Hwf. exact Hwf. Qed.

Lemma keeps_wf_reply code url : keeps_wf (c_Redirect code url).
Proof. intros w Hwf. exact Hwf. Qed.

Lemma keeps_wf_String code body : keeps_wf (c_String code body).
Proof. intros w Hwf. exact Hwf. Qed.

Lemma keeps_wf_NoContent code : keeps_wf (c_NoContent code).
Proof. intros w Hwf. exact Hwf. Qed.

Lemma keeps_wf_First cond : keeps_wf (db_First cond).
Proof. intros w Hwf. exact Hwf. Qed.

Lemma keeps_wf_Create u : keeps_wf (db_Create u).
Proof.
  intros w Hwf. unfold db_Create.
  destruct (Create u (DB w)) as [err t] eqn:Hc. cbn.
  by apply (Create_wf u (DB w) err).
Qed.

Lemma keeps_wf_Save u : keeps_wf (db_Save u).
Proof.
  intros w Hwf. unfold db_Save.
  destruct (Save u (DB w)) as [err t] eqn:Hc. cbn.
  by apply (Save_wf u (DB w) err).
Qed.

Lemma keeps_wf_Delete u : keeps_wf (db_Delete u).
Proof. intros w Hwf. cbn. by apply Delete_wf. Qed.

Section Invariant.
Context `{Helpers}.
Variable app : App.
Variable o : Oracle.

Lemma keeps_wf_SetSkin u img : keeps_wf (SetSkin o u img).
Proof. intros w Hwf. unfold SetSkin. by destruct (SetSkin_fault o). Qed.

Lemma keeps_wf_SetCape u img : keeps_wf (SetCape o u img).
Proof. intros w Hwf. unfold SetCape. by destruct (SetCape_fault o). Qed.

Lemma keeps_wf_DeleteSkin h : keeps_wf (DeleteSkin o h).
Proof. intros w Hwf. unfold DeleteSkin. by destruct (DeleteSkin_fault o). Qed.

Lemma keeps_wf_DeleteCape h : keeps_wf (DeleteCape o h).
Proof. intros w Hwf. unfold DeleteCape. by destruct (DeleteCape_fault o). Qed.

Ltac keeps :=
  repeat first
    [ apply keeps_wf_bind; [|intros ?]
    | apply keeps_wf_mret
    | apply keeps_wf_Ret
    | apply keeps_wf_RetM
    | apply keeps_wf_orReturn
    | apply keeps_wf_emit
    | apply keeps_wf_reply
    | apply keeps_wf_String
    | apply keeps_wf_NoContent
    | apply keeps_wf_First
    | apply keeps_wf_Create
    | apply keeps_wf_Save
    | apply keeps_wf_Delete
    | apply keeps_wf_SetSkin
    | apply keeps_wf_SetCape
    | apply keeps_wf_DeleteSkin
    | apply keeps_wf_DeleteCape
    | match goal with
      | |- keeps_wf (match ?x with _ => _ end) => destruct x
      end
    | progress cbv beta zeta ].

Lemma keeps_wf_withBrowserAuthentication f c :
  (∀ c' u, keeps_wf (f c' u)) → keeps_wf (withBrowserAuthentication app f c).
Proof.
  intros Hf. unfold withBrowserAuthentication, c_SetCookie. keeps. apply Hf.
Qed.

Lemma keeps_wf_FrontRegister c : keeps_wf (FrontRegister app o c).
Proof. unfold FrontRegister, setErrorMessage, c_SetCookie. keeps. Qed.

Lemma keeps_wf_FrontLogin c : keeps_wf (FrontLogin app o c).
Proof. unfold FrontLogin, setErrorMessage, c_SetCookie. keeps. Qed.

Lemma keeps_wf_FrontLogout c : keeps_wf (FrontLogout app c).
Proof.
  apply keeps_wf_withBrowserAuthentication. intros c' u.
  unfold c_SetCookie. keeps.
Qed.

Lemma keeps_wf_FrontDeleteAccount c : keeps_wf (FrontDeleteAccount app o c).
Proof.
  apply keeps_wf_withBrowserAuthentication. intros c' u.
  unfold c_SetCookie. keeps.
Qed.

Lemma keeps_wf_FrontUpdate c : keeps_wf (FrontUpdate app o c).
Proof.
  apply keeps_wf_withBrowserAuthentication. intros c' u.
  unfold setErrorMessage, c_SetCookie. keeps.
Qed.

(** Every handler of front.go leaves a well-formed table well formed. *)
Lemma run_keeps_wf (m : handler Empty_set) w :
  keeps_wf m → wf (DB w) → wf (DB (run m w).2).
Proof.
  intros Hm Hwf. specialize (Hm w Hwf). unfold run.
  destruct (m w) as [[[]|err] w']. exact Hm.
Qed.

End Invariant.

Section Login.
Context `{Helpers}.
Variable app : App.
Variable o : Oracle.

(** *** Sessions *)

(** A cookie whose token is stored on an account runs the handler on that
    account. *)
Lemma withBrowserAuthentication_resolved f c w tok u :
  Cookie_of c "browserToken" = Some tok →
  tok ≠ "" →
  First (by_browser_token tok) (DB w) = inr u →
  withBrowserAuthentication app f c w = f c u w.
Proof.
  intros Hc Hne Hfirst. handler_unfold.
  rewrite Hc, (bool_decide_eq_false_2 _ Hne), Hfirst. reflexivity.
Qed.




(** [FrontLogin] drops the result of the save. When the token it draws is
    already stored on another account, the save is refused on the uniqueness
    constraint; the login is answered as a success all the same, the cookie
    carries the new token, and the table is as it was. *)
Lemma FrontLogin_token_taken c w u t2 v :
  First (by_username (FormValue c "username")) (DB w) = inr u →
  HashPassword (FormValue c "password") (PasswordSalt u)
    = inr (PasswordHash u) →
  RandomHex (token_entropy o) 32 = inr t2 →
  v ∈ DB w → UUID v ≠ UUID u → BrowserToken v = Some t2 →
  ∃ w', run (FrontLogin app o c) w = (None, w')
      ∧ DB w' = DB w
      ∧ Trace w' = Trace w ++
          [EvSetCookie {| Name := "browserToken"; Value := t2;
                          Expires := Some (time_Now o + hours 24) |};
           EvSave (set_BrowserToken (Some t2) u);
           EvRedirect StatusSeeOther (frontURL app)].
Proof.
  intros Hfirst Hhash Htok Hv Hvu Hvt.
  destruct (First_found _ _ _ Hfirst) as [Hu _].
  assert (Hsave : Save (set_BrowserToken (Some t2) u) (DB w)
                  = (Some ErrUniqueFailed, DB w)).
  { unfold Save.
    rewrite (proj2 (existsb_true_elem_of
                      (same_row (set_BrowserToken (Some t2) u)) (DB w))).
    2:{ exists u. split; [done|]. by apply same_row_true. }
    rewrite (proj2 (existsb_true_elem_of _ (DB w))); [done|].
    exists v. split; [done|].
    rewrite (proj2 (same_row_false (set_BrowserToken (Some t2) u) v))
      by (cbn; congruence).
    unfold clash, same_token. cbn. rewrite Hvt.
    rewrite (bool_decide_eq_true_2 (t2 = t2)) by done.
    by rewrite !orb_true_r. }
  handler_unfold. rewrite Hfirst. cbn. rewrite Hhash. cbn.
  unfold bytes_Equal. rewrite bool_decide_eq_true_2 by done. cbn.
  rewrite Htok. cbn. rewrite Hsave. cbn.
  eexists. split; [reflexivity|]. cbn. split; [done|].
  by rewrite <- !app_assoc.
Qed.

(** C4, as amended. A login that fails authentication tells the caller which
    credential was bad: an unknown username is answered with "User not
    found!", a wrong password with "Incorrect password!". In both cases the
    client is sent back to the front page, no session cookie is set, and the
    state is untouched; the two answers differ in the message alone. *)
Theorem FrontLogin_failure_names_cause c1 c2 w u hash :
  First (by_username (FormValue c1 "username")) (DB w)
    = inl ErrRecordNotFound →
  First (by_username (FormValue c2 "username")) (DB w) = inr u →
  HashPassword (FormValue c2 "password") (PasswordSalt u) = inr hash →
  hash ≠ PasswordHash u →
  run (FrontLogin app o c1) w
    = (None,
       log (EvRedirect StatusSeeOther (frontURL app))
         (log (EvSetCookie {| Name := "errorMessage";
                              Value := "User not found!";
                              Expires := None |}) w))
  ∧ run (FrontLogin app o c2) w
    = (None,
       log (EvRedirect StatusSeeOther (frontURL app))
         (log (EvSetCookie {| Name := "errorMessage";
                              Value := "Incorrect password!";
                              Expires := None |}) w))
  ∧ run (FrontLogin app o c1) w ≠ run (FrontLogin app o c2) w.
Proof.
  intros Hunknown Hknown Hhash Hne.
  assert (H1 : run (FrontLogin app o c1) w
    = (None,
       log (EvRedirect StatusSeeOther (frontURL app))
         (log (EvSetCookie {| Name := "errorMessage";
                              Value := "User not found!";
                              Expires := None |}) w))).
  { handler_unfold. rewrite Hunknown. reflexivity. }
  assert (H2 : run (FrontLogin app o c2) w
    = (None,
       log (EvRedirect StatusSeeOther (frontURL app))
         (log (EvSetCookie {| Name := "errorMessage";
                              Value := "Incorrect password!";
                              Expires := None |}) w))).
  { handler_unfold. rewrite Hknown. cbn. rewrite Hhash. cbn.
    unfold bytes_Equal. rewrite bool_decide_eq_false_2 by done.
    reflexivity. }
  split; [done|]. split; [done|].
  rewrite H1, H2. intros Heq.
  apply (f_equal (λ r, Trace r.2)) in Heq. cbn in Heq.
  rewrite <- !app_assoc in Heq. apply app_inv_head in Heq. discriminate.
Qed.

End Login.

Section DeleteAccount.
Variable app : App.
Variable o : Oracle.

(** *** Delete account *)


End DeleteAccount.

Section Update.
Context `{Helpers}.
Variable app : App.
Variable o : Oracle.

(** *** Update profile *)

(** A field that fails validation before the password step ends the update
    with its message, and the table is not written. *)
Lemma FrontUpdate_invalid_name_aborts c w tok u :
  Cookie_of c "browserToken" = Some tok →
  tok ≠ "" →
  First (by_browser_token tok) (DB w) = inr u →
  IsValidPlayerName (FormValue c "playerName") = false →
  run (FrontUpdate app o c) w
  = (None,
     log (EvRedirect StatusSeeOther (frontURL app))
       (log (EvSetCookie
               {| Name := "errorMessage";
                  Value := "Player name must be between 1 and 16 characters (inclusive).";
                  Expires := None |}) w)).
Proof.
  intros Hc Hne Hfirst Hname. handler_unfold.
  rewrite Hc, (bool_decide_eq_false_2 _ Hne), Hfirst. cbn.
  rewrite Hname. reflexivity.
Qed.

Lemma FrontUpdate_invalid_language_aborts c w tok u :
  Cookie_of c "browserToken" = Some tok →
  tok ≠ "" →
  First (by_browser_token tok) (DB w) = inr u →
  IsValidPlayerName (FormValue c "playerName") = true →
  IsValidPreferredLanguage (FormValue c "preferredLanguage") = false →
  run (FrontUpdate app o c) w
  = (None,
     log (EvRedirect StatusSeeOther (frontURL app))
       (log (EvSetCookie
               {| Name := "errorMessage";
                  Value := "Invalid preferred language.";
                  Expires := None |}) w)).
Proof.
  intros Hc Hne Hfirst Hname Hlang. handler_unfold.
  rewrite Hc, (bool_decide_eq_false_2 _ Hne), Hfirst. cbn.
  rewrite Hname, Hlang. reflexivity.
Qed.

(** A skin model that fails validation ends the update with status 400 and
    no message; the table is not written. *)
Lemma FrontUpdate_invalid_skin_model_aborts c w tok u :
  Cookie_of c "browserToken" = Some tok →
  tok ≠ "" →
  First (by_browser_token tok) (DB w) = inr u →
  IsValidPlayerName (FormValue c "playerName") = true →
  IsValidPreferredLanguage (FormValue c "preferredLanguage") = true →
  FormValue c "password" = "" →
  IsValidSkinModel (FormValue c "skinModel") = false →
  run (FrontUpdate app o c) w
  = (None, log (EvNoContent StatusBadRequest) w).
Proof.
  intros Hc Hne Hfirst Hname Hlang Hpw Hmodel. handler_unfold.
  rewrite Hc, (bool_decide_eq_false_2 _ Hne), Hfirst. cbn.
  rewrite Hname, Hlang. cbn. rewrite (bool_decide_eq_true_2 _ Hpw). cbn.
  rewrite Hmodel. reflexivity.
Qed.

(** C2, at the defect. A non-empty password that fails [IsValidPassword]
    sets the "Invalid password." message and nothing more: the handler goes
    on, draws a salt, hashes the invalid password, and saves the record with
    the new salt and hash. *)
Theorem FrontUpdate_invalid_password_persisted c w tok u salt hash t' :
  Cookie_of c "browserToken" = Some tok →
  tok ≠ "" →
  First (by_browser_token tok) (DB w) = inr u →
  IsValidPlayerName (FormValue c "playerName") = true →
  IsValidPreferredLanguage (FormValue c "preferredLanguage") = true →
  FormValue c "password" ≠ "" →
  IsValidPassword (FormValue c "password") = false →
  rand_Read (salt_entropy o) 16 = inr salt →
  HashPassword (FormValue c "password") salt = inr hash →
  IsValidSkinModel (FormValue c "skinModel") = true →
  FormFile c "skinFile" = None → FormValue c "skinUrl" = "" →
  FormFile c "capeFile" = None → FormValue c "capeUrl" = "" →
  let u' :=
    set_SkinModel (FormValue c "skinModel")
      (set_PasswordHash hash
         (set_PasswordSalt salt
            (set_PreferredLanguage (FormValue c "preferredLanguage")
               (set_PlayerName (FormValue c "playerName") u)))) in
  Save u' (DB w) = (None, t') →
  ∃ w', run (FrontUpdate app o c) w = (None, w')
      ∧ Trace w' = Trace w ++
          [EvSetCookie {| Name := "errorMessage";
                          Value := "Invalid password.";
                          Expires := None |};
           EvSave u';
           EvRedirect StatusSeeOther (frontURL app)]
      ∧ DB w' = t'
      ∧ u' ∈ DB w'
      ∧ PasswordSalt u' = salt ∧ PasswordHash u' = hash.
Proof.
  intros Hc Hne Hfirst Hname Hlang Hpw Hinvalid Hsalt Hhash Hmodel
    Hsf Hsu Hcf Hcu u' Hsave.
  handler_unfold.
  rewrite Hc, (bool_decide_eq_false_2 _ Hne), Hfirst. cbn.
  rewrite Hname, Hlang. cbn.
  rewrite (bool_decide_eq_false_2 _ Hpw), Hinvalid. cbn.
  rewrite Hsalt. cbn. rewrite Hhash. cbn. rewrite Hmodel. cbn.
  rewrite Hsf, (bool_decide_eq_true_2 _ Hsu). cbn.
  rewrite Hcf, (bool_decide_eq_true_2 _ Hcu). cbn.
  pose proof (Save_ok_stored u' (DB w) t' Hsave) as Hstored.
  subst u'. cbn in Hsave, Hstored. rewrite Hsave. cbn.
  eexists. split; [reflexivity|]. cbn.
  split; [by rewrite <- !app_assoc|]. done.
Qed.

(** C10. In the update flow, when an image fetched from a URL validates and
    the asset store then fails to take it, the handler returns nil: no
    response is written, no error is reported, and the record is not saved.
    This holds for the skin, and for the cape after a skin step that was
    skipped or went through. *)
Theorem FrontUpdate_asset_failure_swallowed c w tok u skin body img e :
  Cookie_of c "browserToken" = Some tok →
  tok ≠ "" →
  First (by_browser_token tok) (DB w) = inr u →
  IsValidPlayerName (FormValue c "playerName") = true →
  IsValidPreferredLanguage (FormValue c "preferredLanguage") = true →
  password_accepted o c →
  IsValidSkinModel (FormValue c "skinModel") = true →
  (FormFile c "skinFile" = None →
   FormValue c "skinUrl" ≠ "" →
   http_Get o (FormValue c "skinUrl") = inr body →
   ValidateSkin app body = inr img →
   SetSkin_fault o = Some e →
   ∃ w', run (FrontUpdate app o c) w = (None, w')
       ∧ DB w' = DB w ∧ Skins w' = Skins w ∧ Capes w' = Capes w
       ∧ Trace w' = Trace w ++ password_notice c
                    ++ [EvSetSkin (ContentHash img)])
  ∧ (skin_accepted app o c skin →
     FormFile c "capeFile" = None →
     FormValue c "capeUrl" ≠ "" →
     http_Get o (FormValue c "capeUrl") = inr body →
     ValidateCape app body = inr img →
     SetCape_fault o = Some e →
     ∃ w', run (FrontUpdate app o c) w = (None, w')
         ∧ DB w' = DB w ∧ Capes w' = Capes w
         ∧ Trace w' = Trace w ++ password_notice c
                      ++ from_option (λ s, [EvSetSkin (ContentHash s)]) [] skin
                      ++ [EvSetCape (ContentHash img)]).
Proof.
  intros Hc Hne Hfirst Hname Hlang Hpw Hmodel.
  assert (Hstart : ∀ k : Request → User → handler Empty_set,
            withBrowserAuthentication app k c w = k c u w).
  { intros k. by apply (withBrowserAuthentication_resolved app k c w tok). }
  split.
  - intros Hsf Hsu Hget Hval Hfault.
    unfold FrontUpdate, run. rewrite Hstart.
    handler_unfold. unfold password_notice.
    rewrite Hname, Hlang. cbn.
    destruct Hpw as [Hpw|(Hpw & salt & hash & Hsalt & Hhash)].
    + rewrite (bool_decide_eq_true_2 _ Hpw). cbn. rewrite Hmodel. cbn.
      rewrite Hsf, (bool_decide_eq_false_2 _ Hsu). cbn.
      rewrite Hget, Hval, Hfault. cbn.
      eexists. split; [reflexivity|]. cbn. done.
    + rewrite (bool_decide_eq_false_2 _ Hpw). cbn.
      destruct (IsValidPassword (FormValue c "password")); cbn;
        rewrite Hsalt; cbn; rewrite Hhash; cbn; rewrite Hmodel; cbn;
        rewrite Hsf, (bool_decide_eq_false_2 _ Hsu); cbn;
        rewrite Hget, Hval, Hfault; cbn;
        (eexists; split; [reflexivity|]); cbn;
        repeat split; try done; by rewrite <- ?app_assoc.
  - intros Hskin Hcf Hcu Hget Hval Hfault.
    unfold FrontUpdate, run. rewrite Hstart.
    handler_unfold. unfold password_notice.
    rewrite Hname, Hlang. cbn.
    destruct Hpw as [Hpw|(Hpw & salt & hash & Hsalt & Hhash)].
    + rewrite (bool_decide_eq_true_2 _ Hpw). cbn. rewrite Hmodel. cbn.
      destruct skin as [s|]; cbn in Hskin.
      * destruct Hskin as [Hok [(fh & b & Hsf & Hopen & Hv)|(Hsf & Hsu & b & Hg & Hv)]].
        -- rewrite Hsf. cbn. rewrite Hopen. cbn. rewrite Hv, Hok. cbn.
           rewrite Hcf, (bool_decide_eq_false_2 _ Hcu). cbn.
           rewrite Hget, Hval, Hfault. cbn.
           eexists. split; [reflexivity|]. cbn.
           repeat split; try done; by rewrite <- ?app_assoc.
        -- rewrite Hsf, (bool_decide_eq_false_2 _ Hsu). cbn.
           rewrite Hg, Hv, Hok. cbn.
           rewrite Hcf, (bool_decide_eq_false_2 _ Hcu). cbn.
           rewrite Hget, Hval, Hfault. cbn.
           eexists. split; [reflexivity|]. cbn.
           repeat split; try done; by rewrite <- ?app_assoc.
      * destruct Hskin as [Hsf Hsu].
        rewrite Hsf, (bool_decide_eq_true_2 _ Hsu). cbn.
        rewrite Hcf, (bool_decide_eq_false_2 _ Hcu). cbn.
        rewrite Hget, Hval, Hfault. cbn.
        eexists. split; [reflexivity|]. cbn.
        repeat split; try done; by rewrite <- ?app_assoc.
    + rewrite (bool_decide_eq_false_2 _ Hpw). cbn.
      destruct (IsValidPassword (FormValue c "password")); cbn;
        rewrite Hsalt; cbn; rewrite Hhash; cbn; rewrite Hmodel; cbn.
      all: destruct skin as [s|]; cbn in Hskin.
      all: try (destruct Hskin as [Hok [(fh & b & Hsf & Hopen & Hv)|(Hsf & Hsu & b & Hg & Hv)]]).
      all: try (destruct Hskin as [Hsf Hsu]).
      all: try (rewrite Hsf; cbn; rewrite Hopen; cbn; rewrite Hv, Hok; cbn).
      all: try (rewrite Hsf, (bool_decide_eq_false_2 _ Hsu); cbn;
                rewrite Hg, Hv, Hok; cbn).
      all: try (rewrite Hsf, (bool_decide_eq_true_2 _ Hsu); cbn).
      all: rewrite Hcf, (bool_decide_eq_false_2 _ Hcu); cbn;
           rewrite Hget, Hval, Hfault; cbn;
           (eexists; split; [reflexivity|]); cbn;
           repeat split; try done; by rewrite <- ?app_assoc.
Qed.

End Update.

(** C1, refuted as stated: with new-player registration disabled, a
    registration goes through and stores the account. *)
Lemma FrontRegister_registers_when_closed :
  ¬ (∀ (H : Helpers) (app : App) (o : Oracle) (c : Request) (w w' : World),
       run (FrontRegister app o c) w = (None, w') →
       DB w' ≠ DB w →
       Allow (RegistrationNewPlayer (Config app)) = true).
Proof.
  intros Hclaim.
  pose (app := Demo.app_of
                 (with_RegistrationNewPlayer Demo.closed_registration
                    Demo.config)).
  pose (r := run (@FrontRegister Demo.helpers app
                    (Demo.oracle "uuid-alice" x61)
                    (Demo.credentials "alice" "secret1")) Demo.empty_world).
  assert (Hrun : r = (None, r.2)) by (vm_compute; reflexivity).
  specialize (Hclaim Demo.helpers app _ _ _ _ Hrun).
  assert (Hdb : DB r.2 ≠ DB Demo.empty_world) by (vm_compute; discriminate).
  specialize (Hclaim Hdb). vm_compute in Hclaim. discriminate.
Qed.

(** C7, refuted as stated: under a configuration whose default language is
    "fr", the account registered has the preferred language "en". *)
Lemma FrontRegister_language_not_configured :
  ¬ (∀ (H : Helpers) (app : App) (o : Oracle) (c : Request) (w w' : World)
       (u : User),
       run (FrontRegister app o c) w = (None, w') →
       DB w' = DB w ++ [u] →
       PreferredLanguage u = DefaultPreferredLanguage (Config app)).
Proof.
  intros Hclaim.
  pose (app := Demo.app_of (with_DefaultPreferredLanguage "fr" Demo.config)).
  pose (r := run (@FrontRegister Demo.helpers app
                    (Demo.oracle "uuid-alice" x61)
                    (Demo.credentials "alice" "secret1")) Demo.empty_world).
  assert (Hrun : r = (None, r.2)) by (vm_compute; reflexivity).
  assert (Hu : ∃ u, DB r.2 = DB Demo.empty_world ++ [u]
                      ∧ PreferredLanguage u = "en")
    by (vm_compute; eauto).
  destruct Hu as (u & Hdb & Hlang).
  specialize (Hclaim Demo.helpers app _ _ _ _ u Hrun Hdb).
  rewrite Hlang in Hclaim. vm_compute in Hclaim. discriminate.
Qed.

Lemma FrontRegister_ignores_policy_witness :
  run (@FrontRegister Demo.helpers
         (Demo.app_of
            (with_RegistrationNewPlayer Demo.closed_registration Demo.config))
         (Demo.oracle "uuid-alice" x61) (Demo.credentials "alice" "secret1"))
    Demo.empty_world
  = run (@FrontRegister Demo.helpers (Demo.app_of Demo.config)
           (Demo.oracle "uuid-alice" x61) (Demo.credentials "alice" "secret1"))
      Demo.empty_world.
Proof.
  apply (@FrontRegister_ignores_policy Demo.helpers (Demo.app_of Demo.config)
           (Demo.oracle "uuid-alice" x61)
           (Demo.app_of
              (with_RegistrationNewPlayer Demo.closed_registration
                 Demo.config))
           (Demo.credentials "alice" "secret1") Demo.empty_world).
  reflexivity.
Defined.

Lemma FrontRegister_success_witness :
  ∃ salt hash tok,
    DB Demo.alice_world
    = [ {| UUID := "uuid-alice"; Username := "alice";
           PasswordSalt := salt; PasswordHash := hash; TokenPairs := [];
           PlayerName := "alice"; PreferredLanguage := "en";
           SkinModel := "classic"; BrowserToken := Some tok;
           SkinHash := None; CapeHash := None |} ]
    ∧ length salt = 16%nat.
Proof.
  destruct (@FrontRegister_success Demo.helpers (Demo.app_of Demo.config)
              (Demo.oracle "uuid-alice" x61)
              (Demo.credentials "alice" "secret1")
              Demo.empty_world Demo.alice_world)
    as (salt & hash & tok & Hw).
  - vm_compute. reflexivity.
  - vm_compute. discriminate.
  - exists salt, hash, tok. cbn in Hw.
    destruct Hw as (_ & Hlen & _ & _ & _ & _ & _ & Hdb & _).
    split; [exact Hdb|exact Hlen].
Defined.

Lemma FrontRegister_conflict_unclassified_witness :
  ∃ w', run (@FrontRegister Demo.helpers (Demo.app_of Demo.config)
               (Demo.oracle "uuid-2" x62)
               (Demo.credentials "alice" "other"))
          (Demo.settled Demo.alice_world)
        = (Some ErrUniqueFailed, w')
      ∧ DB w' = DB (Demo.settled Demo.alice_world)
      ∧ Trace w' =
          Trace (Demo.settled Demo.alice_world) ++
          [EvCreate
             (registered (Demo.oracle "uuid-2" x62)
                (Demo.credentials "alice" "other")
                (repeat x62 16)
                (repeat x62 16 ++ String.list_byte_of_string "other")
                (hex_encode (repeat x62 32)))].
Proof.
  apply (@FrontRegister_conflict_unclassified Demo.helpers
           (Demo.app_of Demo.config) (Demo.oracle "uuid-2" x62)
           (Demo.credentials "alice" "other")
           (Demo.settled Demo.alice_world)
           (repeat x62 16)
           (repeat x62 16 ++ String.list_byte_of_string "other")
           (hex_encode (repeat x62 32))
           Demo.alice);
    try (vm_compute; reflexivity); try (vm_compute; discriminate).
  vm_compute. left.
Defined.

(** C4, refuted as stated: against one state, a login with an unknown
    username and a login with a wrong password are answered differently. *)
Lemma FrontLogin_failures_distinguishable :
  ¬ (∀ (H : Helpers) (app : App) (o : Oracle) (w : World) (c1 c2 : Request)
       (u : User) (hash : bytes),
       First (by_username (FormValue c1 "username")) (DB w)
         = inl ErrRecordNotFound →
       First (by_username (FormValue c2 "username")) (DB w) = inr u →
       HashPassword (FormValue c2 "password") (PasswordSalt u) = inr hash →
       hash ≠ PasswordHash u →
       run (FrontLogin app o c1) w = run (FrontLogin app o c2) w).
Proof.
  intros Hclaim.
  specialize (Hclaim Demo.helpers (Demo.app_of Demo.config)
                (Demo.oracle "uuid-2" x62) (Demo.settled Demo.alice_world)
                (Demo.credentials "bob" "secret1")
                (Demo.credentials "alice" "wrong")
                Demo.alice
                (repeat x61 16 ++ String.list_byte_of_string "wrong")).
  apply (f_equal (λ r, Trace r.2)) in Hclaim.
  - vm_compute in Hclaim. discriminate.
  - vm_compute. reflexivity.
  - vm_compute. reflexivity.
  - vm_compute. reflexivity.
  - vm_compute. discriminate.
Qed.

Lemma FrontLogin_failure_names_cause_witness :
  run (@FrontLogin Demo.helpers (Demo.app_of Demo.config)
         (Demo.oracle "uuid-2" x62) (Demo.credentials "bob" "secret1"))
    (Demo.settled Demo.alice_world)
  ≠ run (@FrontLogin Demo.helpers (Demo.app_of Demo.config)
           (Demo.oracle "uuid-2" x62) (Demo.credentials "alice" "wrong"))
      (Demo.settled Demo.alice_world).
Proof.
  apply (@FrontLogin_failure_names_cause Demo.helpers
           (Demo.app_of Demo.config) (Demo.oracle "uuid-2" x62)
           (Demo.credentials "bob" "secret1")
           (Demo.credentials "alice" "wrong")
           (Demo.settled Demo.alice_world) Demo.alice
           (repeat x61 16 ++ String.list_byte_of_string "wrong")).
  - vm_compute. reflexivity.
  - vm_compute. reflexivity.
  - vm_compute. reflexivity.
  - vm_compute. discriminate.
Defined.






Lemma FrontUpdate_invalid_password_persisted_witness :
  IsValidPassword (Helpers := Demo.helpers) "abc" = false
  ∧ ∃ w', run (@FrontUpdate Demo.helpers (Demo.app_of Demo.config)
                 (Demo.oracle "uuid-2" x63) Demo.short_password_update)
            (Demo.settled Demo.alice_world) = (None, w')
        ∧ set_SkinModel "classic"
            (set_PasswordHash
               (repeat x63 16 ++ String.list_byte_of_string "abc")
               (set_PasswordSalt (repeat x63 16)
                  (set_PreferredLanguage "en"
                     (set_PlayerName "alice" Demo.alice))))
          ∈ DB w'.
Proof.
  split; [reflexivity|].
  destruct (@FrontUpdate_invalid_password_persisted Demo.helpers
              (Demo.app_of Demo.config) (Demo.oracle "uuid-2" x63)
              Demo.short_password_update (Demo.settled Demo.alice_world)
              Demo.alice_token Demo.alice
              (repeat x63 16)
              (repeat x63 16 ++ String.list_byte_of_string "abc")
              [set_SkinModel "classic"
                 (set_PasswordHash
                    (repeat x63 16 ++ String.list_byte_of_string "abc")
                    (set_PasswordSalt (repeat x63 16)
                       (set_PreferredLanguage "en"
                          (set_PlayerName "alice" Demo.alice))))])
    as (w' & Hrun & _ & _ & Hin & _);
    try (vm_compute; reflexivity); try (vm_compute; discriminate).
  exists w'. split; [exact Hrun|exact Hin].
Defined.

Lemma FrontUpdate_asset_failure_swallowed_witness :
  (∃ w', run (@FrontUpdate Demo.helpers (Demo.app_of Demo.config)
                (Demo.failing_assets (ErrOther "disk full")
                   (Demo.oracle "uuid-2" x62))
                Demo.skin_url_update)
           (Demo.settled Demo.alice_world) = (None, w')
       ∧ DB w' = DB (Demo.settled Demo.alice_world)
       ∧ Trace w' = [EvSetSkin (hex_encode Demo.steve)])
  ∧ (∃ w', run (@FrontUpdate Demo.helpers (Demo.app_of Demo.config)
                  (Demo.failing_assets (ErrOther "disk full")
                     (Demo.oracle "uuid-2" x62))
                  Demo.cape_url_update)
             (Demo.settled Demo.alice_world) = (None, w')
         ∧ DB w' = DB (Demo.settled Demo.alice_world)
         ∧ Trace w' = [EvSetCape (hex_encode Demo.steve)]).
Proof.
  split.
  - destruct (@FrontUpdate_asset_failure_swallowed Demo.helpers
                (Demo.app_of Demo.config)
                (Demo.failing_assets (ErrOther "disk full")
                   (Demo.oracle "uuid-2" x62))
                Demo.skin_url_update (Demo.settled Demo.alice_world)
                Demo.alice_token Demo.alice None Demo.steve Demo.steve
                (ErrOther "disk full")) as [Hskin _];
      try (vm_compute; reflexivity); try (vm_compute; discriminate).
    + left. reflexivity.
    + destruct Hskin as (w' & Hrun & Hdb & _ & _ & Htrace);
        try (vm_compute; reflexivity); try (vm_compute; discriminate).
      exists w'. split; [exact Hrun|]. split; [exact Hdb|exact Htrace].
  - destruct (@FrontUpdate_asset_failure_swallowed Demo.helpers
                (Demo.app_of Demo.config)
                (Demo.failing_assets (ErrOther "disk full")
                   (Demo.oracle "uuid-2" x62))
                Demo.cape_url_update (Demo.settled Demo.alice_world)
                Demo.alice_token Demo.alice None Demo.steve Demo.steve
                (ErrOther "disk full")) as [_ Hcape];
      try (vm_compute; reflexivity); try (vm_compute; discriminate).
    + left. reflexivity.
    + destruct Hcape as (w' & Hrun & Hdb & _ & Htrace);
        try (vm_compute; reflexivity); try (vm_compute; discriminate).
      * split; reflexivity.
      * exists w'. split; [exact Hrun|]. split; [exact Hdb|exact Htrace].
Defined.

End FrontFacts.

(** * Further properties *)

(** ** Key manager and configuration loader *)

Module StartupFacts.
Import OS KeyManager ConfigLoader.

Ltac boot_unfold :=
  unfold ReadOrCreateKey, ReadOrCreateConfig, Check, Checked, os_ReadFile,
    os_WriteFile, os_Stat, os_Create, toml_encode_to, toml_DecodeFile,
    assert_rsa, mbind, boot_bind, mret, boot_ret.

Section WithCrypto.
Context `{Crypto}.

(** X2. A key file that can be read is never written, and what the start
    returns does not depend on the key the generator would have drawn: two
    starts that fare alike with the state directory end alike. *)
Theorem ReadOrCreateKey_readable_file_kept config o o2 s der :
  ReadFile s (key_path config) = inr der →
  (ReadOrCreateKey config o s).2 = s
  ∧ (MkdirAll o (StateDirectory config) = MkdirAll o2 (StateDirectory config) →
     ReadOrCreateKey config o s = ReadOrCreateKey config o2 s).
Proof.
  intros Hread. boot_unfold. split.
  - destruct (MkdirAll o (StateDirectory config)); [done|]. rewrite Hread.
    destruct (ParsePKCS8PrivateKey der) as [?|[k|?]]; done.
  - intros <-. destruct (MkdirAll o (StateDirectory config)); [done|].
    by rewrite Hread.
Qed.

(** X3. On a first start, with no file at the key path, a start that
    returns a key has created exactly one file: the key file, holding the
    PKCS#8 encoding of the returned key, readable and writable by its owner
    and by nobody else; every other file is as it was. *)
Theorem ReadOrCreateKey_first_start_file config o s k s' :
  s !! key_path config = None →
  ReadOrCreateKey config o s = (Started k, s') →
  ∃ der,
    MarshalPKCS8PrivateKey k = inr der
    ∧ GenerateKey o 4096 = inr k
    ∧ s' = <[key_path config := {| data := der; mode := 384 |}]> s
    ∧ ReadFile s' (key_path config) = inr der
    ∧ Z.land 384 63 = 0
    ∧ ∀ p, p ≠ key_path config → s' !! p = s !! p.
Proof.
  intros Hnone. boot_unfold.
  destruct (MkdirAll o (StateDirectory config)); [done|].
  unfold ReadFile at 1. rewrite Hnone.
  destruct (GenerateKey o 4096) as [?|k0]; [done|].
  destruct (MarshalPKCS8PrivateKey k0) as [?|der] eqn:Hder; [done|].
  unfold WriteFile. rewrite Hnone. intros [= <- <-].
  exists der. repeat split; try done.
  - unfold ReadFile. by rewrite lookup_insert_eq.
  - intros p Hp. by rewrite lookup_insert_ne.
Qed.

End WithCrypto.

Section WithToml.
Context `{Toml}.

(** X4. With no configuration file at the path, the loader creates one
    (mode 0666), writes the encoding of the default configuration into it,
    and returns what decoding that file over the defaults gives; no other
    file is touched. *)
Theorem ReadOrCreateConfig_creates_defaults path s d config :
  s !! path = None →
  toml_Encode DefaultConfig = inr d →
  toml_Decode d DefaultConfig = inr config →
  ReadOrCreateConfig path s
  = (Started config, <[path := {| data := d; mode := 438 |}]> s).
Proof.
  intros Hnone Henc Hdec. boot_unfold.
  unfold Stat. rewrite Hnone. unfold Create. rewrite Hnone. cbn.
  rewrite Henc. cbn. unfold ReadFile, handle_write.
  rewrite lookup_alter_eq, lookup_insert_eq. cbn. rewrite Hdec.
  f_equal. apply map_eq. intros p. destruct (decide (p = path)) as [->|Hp].
  - by rewrite lookup_alter_eq, !lookup_insert_eq.
  - by rewrite lookup_alter_ne, !lookup_insert_ne.
Qed.

(** X5. A configuration file that is there is never written, and there is no
    falling back to the defaults: the loader returns what the file decodes to
    over the defaults, and stops the start when the file cannot be read or
    does not decode. *)
Theorem ReadOrCreateConfig_existing_file path s f :
  s !! path = Some f →
  (ReadOrCreateConfig path s).2 = s
  ∧ (ReadOrCreateConfig path s).1 =
      (if readable f
       then match toml_Decode (data f) DefaultConfig with
            | inl e => Fatal e
            | inr config => Started config
            end
       else Fatal ErrPermission).
Proof.
  intros Hf. boot_unfold. unfold Stat, ReadFile. rewrite Hf.
  cbn -[readable]. rewrite Hf.
  destruct (readable f); [|done].
  destruct (toml_Decode (data f) DefaultConfig); done.
Qed.

End WithToml.

Lemma ReadOrCreateKey_readable_file_kept_witness :
  (@ReadOrCreateKey demo_crypto DefaultConfig (demo_oracle [x30; x99])
     {[ pem_path := {| data := [x30; x82]; mode := 384 |} ]}).2
  = {[ pem_path := {| data := [x30; x82]; mode := 384 |} ]}.
Proof.
  apply (@ReadOrCreateKey_readable_file_kept demo_crypto DefaultConfig
           (demo_oracle [x30; x99]) (demo_oracle [x30; x99])
           {[ pem_path := {| data := [x30; x82]; mode := 384 |} ]}
           [x30; x82]).
  reflexivity.
Defined.

Lemma ReadOrCreateKey_first_start_file_witness :
  ∃ der,
    @MarshalPKCS8PrivateKey demo_crypto [x30; x82] = inr der
    ∧ (<[pem_path := {| data := [x30; x82]; mode := 384 |}]> ∅ : fs)
      = <[pem_path := {| data := der; mode := 384 |}]> ∅.
Proof.
  destruct (@ReadOrCreateKey_first_start_file demo_crypto DefaultConfig
              (demo_oracle [x30; x82]) ∅ [x30; x82]
              (<[pem_path := {| data := [x30; x82]; mode := 384 |}]> ∅))
    as (der & Hder & _ & Hfs & _).
  - reflexivity.
  - reflexivity.
  - exists der. split; [exact Hder|exact Hfs].
Defined.

Lemma ReadOrCreateConfig_creates_defaults_witness :
  @ReadOrCreateConfig demo_toml toml_path ∅
  = (Started DefaultConfig,
     <[toml_path := {| data := String.list_byte_of_string "en";
                      mode := 438 |}]> ∅).
Proof.
  apply (@ReadOrCreateConfig_creates_defaults demo_toml toml_path ∅
           (String.list_byte_of_string "en") DefaultConfig);
    reflexivity.
Defined.

Lemma ReadOrCreateConfig_existing_file_witness :
  (@ReadOrCreateConfig demo_toml toml_path french_fs).2 = french_fs
  ∧ (@ReadOrCreateConfig demo_toml toml_path french_fs).1
    = Started (with_DefaultPreferredLanguage "fr" DefaultConfig).
Proof.
  apply (@ReadOrCreateConfig_existing_file demo_toml toml_path french_fs
           {| data := String.list_byte_of_string "fr"; mode := 420 |}).
  reflexivity.
Defined.

End StartupFacts.

(** ** Sessions, registration and login *)

Module SessionFacts.
Import Storage Web Front FrontMore StorageFacts FrontFacts.


(** A changed copy of a stored row that keeps its primary key and clashes
    with no other row takes the place of that row, and of that row only. *)
Lemma Save_in_place t u u' :
  wf t → u ∈ t → UUID u' = UUID u →
  (∀ v, v ∈ t → v ≠ u → clash u' v = false) →
  Save u' t = (None, (λ v, if same_row u' v then u' else v) <$> t)
  ∧ ∀ v, v ∈ t → same_row u' v = true → v = u.
Proof.
  intros Hwf Hu Hid Hfree.
  assert (Hrow : ∀ v, v ∈ t → same_row u' v = true → v = u).
  { intros v Hv Hrow. apply same_row_true in Hrow.
    apply (wf_same_row t); [done..|congruence]. }
  split; [|done]. apply Save_replace.
  - exists u. done.
  - intros v Hv Hne. apply Hfree; [done|]. intros ->. done.
Qed.

(** Under the table invariant, saving a copy of a stored row that agrees
    with it on the columns [f] looks at leaves those columns as they were in
    every row, whether the save goes through or not. *)
Lemma Save_preserves {B} (f : User → B) t u u' :
  wf t → u ∈ t → UUID u' = UUID u → f u' = f u →
  f <$> (Save u' t).2 = f <$> t.
Proof.
  intros Hwf Hu Hid Hf. unfold Save.
  rewrite (proj2 (existsb_true_elem_of (same_row u') t)).
  2:{ exists u. split; [done|]. by apply same_row_true. }
  destruct (existsb (λ v, negb _ && _) t); [done|]. cbn.
  rewrite <- list_fmap_compose. apply list_fmap_ext.
  intros i v Hv. cbn. destruct (same_row u' v) eqn:Hrow; [|done].
  apply same_row_true in Hrow.
  assert (v = u) as ->; [|done].
  apply (wf_same_row t); [done| |done|congruence].
  by apply list_elem_of_lookup_2 in Hv.
Qed.

(** Rows with another primary key come through a save untouched. *)
Lemma Save_others t u' v :
  (∃ u, u ∈ t ∧ UUID u = UUID u') →
  v ∈ t → UUID v ≠ UUID u' → v ∈ (Save u' t).2.
Proof.
  intros (u & Hu & Hid) Hv Hne. unfold Save.
  rewrite (proj2 (existsb_true_elem_of (same_row u') t)).
  2:{ exists u. split; [done|]. by apply same_row_true. }
  destruct (existsb (λ v, negb _ && _) t); [done|]. cbn.
  apply list_elem_of_fmap. exists v. split; [|done].
  rewrite (proj2 (same_row_false u' v)); [done|congruence].
Qed.


(** X19. An error message is shown once. [lastErrorMessage] hands out the
    message of a non-empty [errorMessage] cookie and tells the browser to
    blank that cookie; on the next request, sent with the cookies as the
    response left them, it finds nothing to show and writes nothing. It
    never touches the table or the stores. *)
Theorem lastErrorMessage_once c w msg :
  Cookie_of c "errorMessage" = Some msg →
  msg ≠ "" →
  let blank := EvSetCookie {| Name := "errorMessage"; Value := "";
                              Expires := None |} in
  lastErrorMessage c w = (Next msg, log blank w)
  ∧ DB (log blank w) = DB w
  ∧ lastErrorMessage (follow_up c [blank]) (log blank w)
    = (Next "", log blank w).
Proof.
  intros Hc Hne blank. unfold lastErrorMessage at 1. rewrite Hc.
  rewrite (bool_decide_eq_false_2 _ Hne).
  split; [reflexivity|]. split; [reflexivity|].
  unfold lastErrorMessage, Cookie_of, follow_up. cbn.
  rewrite lookup_insert_eq. reflexivity.
Qed.

Section WithHelpers.
Context `{Helpers}.
Variable app : App.
Variable o : Oracle.

(** What a registration that stored an account has done. *)
Lemma FrontRegister_stored c w w' :
  run (FrontRegister app o c) w = (None, w') →
  DB w' ≠ DB w →
  ∃ salt hash tok,
    HashPassword (FormValue c "password") salt = inr hash
    ∧ (∀ v, v ∈ DB w → Username v ≠ FormValue c "username")
    ∧ DB w' = DB w ++ [registered o c salt hash tok].
Proof.
  handler_unfold.
  case_bool_decide as Hu; [cbn; intros [= <-] Hne; by cbn in Hne|].
  case_bool_decide as Hp; [cbn; intros [= <-] Hne; by cbn in Hne|].
  cbn.
  destruct (rand_Read (salt_entropy o) 16) as [?|salt]; [done|].
  destruct (HashPassword _ salt) as [?|hash] eqn:Hhash; [done|].
  destruct (RandomHex (token_entropy o) 32) as [?|tok]; [done|].
  cbn. fold (registered o c salt hash tok).
  destruct (Create (registered o c salt hash tok) (DB w)) as [[e|] t] eqn:Hc.
  - apply Create_error in Hc as [_ ->]. cbn.
    destruct (IsErrorUniqueFailed None); cbn; [|done].
    intros [= <-] Hne. by cbn in Hne.
  - apply Create_ok in Hc as [-> Hd]. cbn. intros [= <-] _.
    exists salt, hash, tok. cbn. split; [done|]. split; [|done].
    intros v Hv Hname. destruct (Hd v Hv) as [_ Hclash].
    apply clash_false in Hclash as [Hn _]. cbn in Hn. congruence.
Qed.

(** X6. A request that carries no session token, an empty one, or one that
    is stored on no account never reaches the handler behind
    [withBrowserAuthentication]: whatever the handler is, the client is
    redirected to the front page, with at most its cookie cleared, and the
    user table and both blob stores are left as they were. *)
Theorem withBrowserAuthentication_guards f c w :
  (∀ tok u, Cookie_of c "browserToken" = Some tok → tok ≠ "" →
            First (by_browser_token tok) (DB w) ≠ inr u) →
  ∃ w' evs,
    withBrowserAuthentication app f c w = (Return None, w')
    ∧ DB w' = DB w ∧ Skins w' = Skins w ∧ Capes w' = Capes w
    ∧ Trace w' = Trace w ++ evs
                 ++ [EvRedirect StatusSeeOther (frontURL app)]
    ∧ (evs = [] ∨ evs = [EvSetCookie clearBrowserToken]).
Proof.
  intros Hno. handler_unfold.
  destruct (Cookie_of c "browserToken") as [tok|] eqn:Hc.
  - case_bool_decide as Hempty.
    + eexists _, []. cbn. repeat split; try done. by left.
    + destruct (First (by_browser_token tok) (DB w)) as [e|u] eqn:Hfirst.
      * apply First_error in Hfirst as [-> _].
        eexists _, [EvSetCookie clearBrowserToken]. cbn.
        split; [reflexivity|]. cbn. repeat split; try done.
        -- by rewrite <- app_assoc.
        -- by right.
      * by destruct (Hno tok u).
  - eexists _, []. cbn. repeat split; try done. by left.
Qed.


(** X8. Every handler of front.go keeps the uniqueness constraints of the
    user table: started on a table in which primary keys, usernames, player
    names and present session tokens are pairwise distinct, each of register,
    login, logout, update and delete-account ends on such a table, whatever
    the request and whatever fails on the way. *)
Theorem handlers_keep_table_wf c w :
  wf (DB w) →
  wf (DB (run (FrontRegister app o c) w).2)
  ∧ wf (DB (run (FrontLogin app o c) w).2)
  ∧ wf (DB (run (FrontLogout app c) w).2)
  ∧ wf (DB (run (FrontUpdate app o c) w).2)
  ∧ wf (DB (run (FrontDeleteAccount app o c) w).2).
Proof.
  intros Hwf. repeat split; apply run_keeps_wf; try done.
  - apply keeps_wf_FrontRegister.
  - apply keeps_wf_FrontLogin.
  - apply keeps_wf_FrontLogout.
  - apply keeps_wf_FrontUpdate.
  - apply keeps_wf_FrontDeleteAccount.
Qed.


(** X10. A taken username is never stored twice: after a registration that
    stored an account, another registration under the same username leaves
    the user table exactly as it is, whatever password it brings and
    whatever the random source yields. *)
Theorem register_twice_keeps_table c w w1 (o2 : Oracle) c2 :
  run (FrontRegister app o c) w = (None, w1) →
  DB w1 ≠ DB w →
  FormValue c2 "username" = FormValue c "username" →
  DB (run (FrontRegister app o2 c2) w1).2 = DB w1.
Proof.
  intros Hrun Hstored Hsame.
  destruct (FrontRegister_stored c w w1 Hrun Hstored)
    as (salt & hash & tok & _ & _ & Hdb).
  handler_unfold.
  case_bool_decide; [done|]. case_bool_decide; [done|]. cbn.
  destruct (rand_Read (salt_entropy o2) 16) as [?|salt2]; [done|].
  destruct (HashPassword _ salt2) as [?|hash2]; [done|].
  destruct (RandomHex (token_entropy o2) 32) as [?|tok2]; [done|].
  cbn. fold (registered o2 c2 salt2 hash2 tok2).
  rewrite (Create_username_taken (registered o2 c2 salt2 hash2 tok2) (DB w1)
             (registered o c salt hash tok)).
  - cbn. by destruct (IsErrorUniqueFailed None).
  - rewrite Hdb. apply elem_of_app. right. by apply list_elem_of_singleton.
  - cbn. done.
Qed.

(** X11. A registration with a blank username or a blank password is
    answered with status 400 and the matching text, the username being
    looked at first; nothing is drawn from the random source, and the table
    and the stores are left alone. *)
Theorem FrontRegister_blank c w :
  FormValue c "username" = "" ∨ FormValue c "password" = "" →
  run (FrontRegister app o c) w
  = (None,
     log (EvString StatusBadRequest
            (if bool_decide (FormValue c "username" = "")
             then "Username cannot be blank!"
             else "Password cannot be blank!")) w).
Proof.
  intros Hblank. handler_unfold.
  case_bool_decide as Hu; [done|].
  destruct Hblank as [|Hp]; [done|].
  by rewrite (bool_decide_eq_true_2 _ Hp).
Qed.

End WithHelpers.
End SessionFacts.

(** ** Login, delete-account and update *)

Module ProfileFacts.
Import Storage Web Front FrontMore StorageFacts FrontFacts SessionFacts.


(** After a row was rewritten in place, a condition that holds of the new
    record and of no other row finds the new record. *)
Lemma First_replaced cond t u u' :
  u ∈ t → UUID u' = UUID u →
  cond u' = true →
  (∀ v, v ∈ t → same_row u' v = false → cond v = false) →
  First cond ((λ v, if same_row u' v then u' else v) <$> t) = inr u'.
Proof.
  intros Hu Hid Hc Hothers. unfold First.
  erewrite find_unique; [reflexivity| | |].
  - apply list_elem_of_fmap. exists u. split; [|done].
    by rewrite (proj2 (same_row_true u' u)).
  - done.
  - intros v' Hv' Hcv.
    apply list_elem_of_fmap in Hv' as (v & -> & Hv).
    destruct (same_row u' v) eqn:Hr; [done|].
    rewrite (Hothers v Hv Hr) in Hcv. done.
Qed.

Lemma run_snd (m : handler Empty_set) w : (run m w).2 = (m w).2.
Proof. unfold run. by destruct (m w) as [[[]|err] w']. Qed.

(** *** Steps that do not write the table *)

Lemma quiet_mret {A} (a : A) (Q : A → Prop) : Q a → quiet (mret a) Q.
Proof. intros HQ w. split; [done|]. by intros ? [= <-]. Qed.

Lemma quiet_Ret {A} err (Q : A → Prop) : quiet (Ret err) Q.
Proof. intros w. split; [done|]. by intros ? [=]. Qed.

Lemma quiet_bind {A B} (m : handler A) (f : A → handler B) Q R :
  quiet m Q → (∀ a, Q a → quiet (f a) R) → quiet (m ≫= f) R.
Proof.
  intros Hm Hf w. unfold mbind, handler_bind.
  destruct (Hm w) as [Hdb Hq]. destruct (m w) as [[a|err] w1]; cbn in *.
  - destruct (Hf a (Hq a eq_refl) w1) as [Hdb' Hq']. split; [congruence|done].
  - split; [done|]. by intros ? [=].
Qed.

Lemma quiet_RetM {A} m (Q : A → Prop) :
  quiet m (λ _, True) → quiet (RetM m) Q.
Proof.
  intros Hm. apply (quiet_bind _ _ (λ _, True)); [done|].
  intros err _. apply quiet_Ret.
Qed.

Lemma quiet_orReturn {A} (r : error + A) : quiet (orReturn r) (λ _, True).
Proof. destruct r; [apply quiet_Ret|by apply quiet_mret]. Qed.

Lemma quiet_emit e : quiet (emit e) (λ _, True).
Proof. intros w. done. Qed.

Lemma quiet_Redirect code url : quiet (c_Redirect code url) (λ _, True).
Proof. intros w. done. Qed.

Lemma quiet_NoContent code : quiet (c_NoContent code) (λ _, True).
Proof. intros w. done. Qed.

Lemma saves_once_quiet (m : handler Empty_set) Q R : quiet m R → saves_once m Q.
Proof. intros Hm w. left. apply Hm. Qed.

Lemma saves_once_bind {A} (m : handler A) (f : A → handler Empty_set) Q R :
  quiet m Q → (∀ a, Q a → saves_once (f a) R) → saves_once (m ≫= f) R.
Proof.
  intros Hm Hf w. unfold mbind, handler_bind.
  destruct (Hm w) as [Hdb Hq]. destruct (m w) as [[a|err] w1]; cbn in *.
  - destruct (Hf a (Hq a eq_refl) w1) as [Hsame|(u & Hu & Hsave)].
    + left. congruence.
    + right. exists u. split; [done|]. by rewrite Hsave, Hdb.
  - by left.
Qed.

Lemma saves_once_Save u (k : option error → handler Empty_set) (Q : User → Prop) :
  Q u → (∀ err, quiet (k err) (λ _, True)) → saves_once (db_Save u ≫= k) Q.
Proof.
  intros HQ Hk w. right. exists u. split; [done|].
  unfold mbind, handler_bind, db_Save.
  destruct (Save u (DB w)) as [err t]. cbn.
  destruct (Hk err (log (EvSave u) (with_DB t w))) as [Hdb _].
  destruct (k err _) as [[[]|e] w']. cbn in *. done.
Qed.

Section WithHelpers.
Context `{Helpers}.
Variable app : App.
Variable o : Oracle.

Lemma quiet_SetSkin u img :
  quiet (SetSkin o u img) (λ r, identity r.2 = identity u).
Proof.
  intros w. unfold SetSkin. destruct (SetSkin_fault o); cbn.
  - split; [done|]. by intros ? [= <-].
  - split; [done|]. by intros ? [= <-].
Qed.

Lemma quiet_SetCape u img :
  quiet (SetCape o u img) (λ r, identity r.2 = identity u).
Proof.
  intros w. unfold SetCape. destruct (SetCape_fault o); cbn.
  - split; [done|]. by intros ? [= <-].
  - split; [done|]. by intros ? [= <-].
Qed.

Ltac quiet_tac :=
  repeat first
    [ apply quiet_mret
    | apply quiet_Ret
    | apply quiet_RetM
    | apply quiet_orReturn
    | apply quiet_emit
    | apply quiet_Redirect
    | apply quiet_NoContent
    | eapply quiet_bind; [apply quiet_SetSkin|intros [? ?] ?]
    | eapply quiet_bind; [apply quiet_SetCape|intros [? ?] ?]
    | eapply (quiet_bind _ _ (λ _, True)); [|intros ? _]
    | match goal with
      | |- quiet (match ?x with _ => _ end) _ => destruct x
      end
    | progress cbv beta zeta ].

Ltac identity_tac :=
  try done; unfold identity in *; cbn in *; congruence.


Lemma withBrowserAuthentication_saves_once f c (Q : User → User → Prop) w :
  (∀ u, saves_once (f c u) (Q u)) →
  DB (withBrowserAuthentication app f c w).2 = DB w
  ∨ ∃ tok u u',
      Cookie_of c "browserToken" = Some tok
      ∧ First (by_browser_token tok) (DB w) = inr u
      ∧ Q u u'
      ∧ DB (withBrowserAuthentication app f c w).2 = (Save u' (DB w)).2.
Proof.
  intros Hf. unfold withBrowserAuthentication.
  destruct (Cookie_of c "browserToken") as [tok|] eqn:Hc; [|by left].
  case_bool_decide; [by left|].
  unfold mbind, handler_bind, db_First.
  destruct (First (by_browser_token tok) (DB w)) as [e|u] eqn:Hfirst.
  - left. by destruct e.
  - destruct (Hf u w) as [Hsame|(u' & HQ & Hsave)]; [by left|].
    right. exists tok, u, u'. done.
Qed.

Lemma FrontUpdate_saves_once c w :
  DB (run (FrontUpdate app o c) w).2 = DB w
  ∨ ∃ tok u u',
      Cookie_of c "browserToken" = Some tok
      ∧ First (by_browser_token tok) (DB w) = inr u
      ∧ identity u' = identity u
      ∧ DB (run (FrontUpdate app o c) w).2 = (Save u' (DB w)).2.
Proof.
  rewrite run_snd. unfold FrontUpdate.
  apply (withBrowserAuthentication_saves_once _ c
           (λ u u', identity u' = identity u)).
  intros u. cbv beta zeta. unfold setErrorMessage, c_SetCookie.
  eapply (saves_once_bind _ _ (λ _, True)); [quiet_tac; identity_tac|].
  intros _ _.
  eapply (saves_once_bind _ _ (λ _, True)); [quiet_tac; identity_tac|].
  intros _ _.
  eapply (saves_once_bind _ _ (λ user, identity user = identity u));
    [quiet_tac; identity_tac|].
  intros user1 Hu1.
  eapply (saves_once_bind _ _ (λ _, True)); [quiet_tac; identity_tac|].
  intros _ _.
  eapply (saves_once_bind _ _ (λ user, identity user = identity u));
    [quiet_tac; identity_tac|].
  intros user2 Hu2.
  eapply (saves_once_bind _ _ (λ user, identity user = identity u));
    [quiet_tac; identity_tac|].
  intros user3 Hu3.
  apply saves_once_Save; [done|].
  intros err. quiet_tac; identity_tac.
Qed.

(** X12. A profile update never touches what identifies an account or its
    session: over a well-formed table, whatever the request and however the
    update ends, every row keeps its UUID, its username and its session
    token, in the same order; and a row that does not hold the session token
    presented with the request comes through unchanged in every column. *)
Theorem FrontUpdate_keeps_identity c w :
  wf (DB w) →
  identity <$> DB (run (FrontUpdate app o c) w).2 = identity <$> DB w
  ∧ ∀ v, v ∈ DB w →
      (∀ tok, Cookie_of c "browserToken" = Some tok →
              BrowserToken v ≠ Some tok) →
      v ∈ DB (run (FrontUpdate app o c) w).2.
Proof.
  intros Hwf.
  destruct (FrontUpdate_saves_once c w)
    as [->|(tok & u & u' & Hc & Hfirst & Hid & ->)]; [done|].
  destruct (First_found _ _ _ Hfirst) as [Hu Htok].
  apply bool_decide_eq_true in Htok.
  assert (Huuid : UUID u' = UUID u) by (unfold identity in Hid; congruence).
  split.
  - by apply (Save_preserves identity (DB w) u u').
  - intros v Hv Hother. apply Save_others; [by exists u|done|].
    intros Hsame. apply (Hother tok Hc).
    rewrite (wf_same_row (DB w) v u Hwf Hv Hu); [done|congruence].
Qed.

(** X13. A login changes nothing but session tokens: over a well-formed
    table, however the login ends, every row keeps all its columns except
    possibly the session token, the blob stores are untouched, and the rows
    of other usernames come through unchanged. *)
Theorem FrontLogin_frame c w :
  wf (DB w) →
  forget_token <$> DB (run (FrontLogin app o c) w).2 = forget_token <$> DB w
  ∧ Skins (run (FrontLogin app o c) w).2 = Skins w
  ∧ Capes (run (FrontLogin app o c) w).2 = Capes w
  ∧ ∀ v, v ∈ DB w → Username v ≠ FormValue c "username" →
         v ∈ DB (run (FrontLogin app o c) w).2.
Proof.
  intros Hwf. handler_unfold.
  destruct (First (by_username (FormValue c "username")) (DB w))
    as [e|u] eqn:Hfirst; cbn.
  { by destruct e. }
  destruct (First_found _ _ _ Hfirst) as [Hu Hname].
  apply bool_decide_eq_true in Hname.
  destruct (HashPassword _ (PasswordSalt u)) as [?|hash]; cbn; [done|].
  destruct (negb (bytes_Equal hash (PasswordHash u))); cbn; [done|].
  destruct (RandomHex (token_entropy o) 32) as [?|tok]; cbn; [done|].
  set (u' := set_BrowserToken (Some tok) u).
  pose proof (Save_preserves forget_token (DB w) u u' Hwf Hu eq_refl eq_refl)
    as Hkeep.
  assert (Hothers : ∀ v, v ∈ DB w → Username v ≠ FormValue c "username" →
                         v ∈ (Save u' (DB w)).2).
  { intros v Hv Hvn. apply Save_others; [by exists u|done|].
    intros Hsame. apply Hvn.
    rewrite (wf_same_row (DB w) v u Hwf Hv Hu); done. }
  destruct (Save u' (DB w)) as [err t]. cbn in *. done.
Qed.


(** X15. A player name held by another account is refused: when the update
    would give the session's account a player name that another row has,
    the save fails on the uniqueness constraint, the handler (which here
    hands the error of the save to [IsErrorUniqueFailed]) answers "That
    player name is taken.", and the table is left as it was. *)
Theorem FrontUpdate_name_taken c w tok u v :
  Cookie_of c "browserToken" = Some tok →
  tok ≠ "" →
  First (by_browser_token tok) (DB w) = inr u →
  IsValidPlayerName (FormValue c "playerName") = true →
  IsValidPreferredLanguage (FormValue c "preferredLanguage") = true →
  FormValue c "password" = "" →
  IsValidSkinModel (FormValue c "skinModel") = true →
  FormFile c "skinFile" = None → FormValue c "skinUrl" = "" →
  FormFile c "capeFile" = None → FormValue c "capeUrl" = "" →
  v ∈ DB w → UUID v ≠ UUID u →
  PlayerName v = FormValue c "playerName" →
  IsErrorUniqueFailed (Some ErrUniqueFailed) = true →
  ∃ w', run (FrontUpdate app o c) w = (None, w')
      ∧ DB w' = DB w
      ∧ ∃ u',
          Trace w' = Trace w ++
            [EvSave u';
             EvSetCookie {| Name := "errorMessage";
                            Value := "That player name is taken.";
                            Expires := None |};
             EvRedirect StatusSeeOther (frontURL app)].
Proof.
  intros Hc Hne Hfirst Hname Hlang Hpw Hmodel Hsf Hsu Hcf Hcu
    Hv Hvu Hpn Huniq.
  destruct (First_found _ _ _ Hfirst) as [Hu _].
  set (u' := set_SkinModel (FormValue c "skinModel")
               (set_PreferredLanguage (FormValue c "preferredLanguage")
                  (set_PlayerName (FormValue c "playerName") u))).
  assert (Hsave : Save u' (DB w) = (Some ErrUniqueFailed, DB w)).
  { unfold Save.
    rewrite (proj2 (existsb_true_elem_of (same_row u') (DB w))).
    2:{ exists u. split; [done|]. by apply same_row_true. }
    rewrite (proj2 (existsb_true_elem_of _ (DB w))); [done|].
    exists v. split; [done|].
    rewrite (proj2 (same_row_false u' v)) by (cbn; congruence). cbn.
    unfold clash. cbn.
    rewrite (bool_decide_eq_true_2 (FormValue c "playerName" = PlayerName v))
      by done.
    by rewrite orb_true_r. }
  handler_unfold.
  rewrite Hc, (bool_decide_eq_false_2 _ Hne), Hfirst. cbn.
  rewrite Hname, Hlang. cbn. rewrite (bool_decide_eq_true_2 _ Hpw). cbn.
  rewrite Hmodel. cbn.
  rewrite Hsf, (bool_decide_eq_true_2 _ Hsu). cbn.
  rewrite Hcf, (bool_decide_eq_true_2 _ Hcu). cbn.
  subst u'. cbn in Hsave. rewrite Hsave. cbn. rewrite Huniq. cbn.
  eexists. split; [reflexivity|]. cbn. split; [done|].
  eexists. by rewrite <- !app_assoc.
Qed.

(** X16. An update that passes every check is stored and read back: over a
    well-formed table, with valid fields, no new password, no skin or cape,
    and a player name no other account holds, the session's account is
    rewritten with the new player name, language and skin model; the next
    request with the same session token sees exactly that record, with salt
    and password hash as before; the other accounts are unchanged. *)
Theorem FrontUpdate_stored c w tok u :
  wf (DB w) →
  Cookie_of c "browserToken" = Some tok →
  tok ≠ "" →
  First (by_browser_token tok) (DB w) = inr u →
  IsValidPlayerName (FormValue c "playerName") = true →
  IsValidPreferredLanguage (FormValue c "preferredLanguage") = true →
  FormValue c "password" = "" →
  IsValidSkinModel (FormValue c "skinModel") = true →
  FormFile c "skinFile" = None → FormValue c "skinUrl" = "" →
  FormFile c "capeFile" = None → FormValue c "capeUrl" = "" →
  (∀ v, v ∈ DB w → v ≠ u → PlayerName v ≠ FormValue c "playerName") →
  let u' := set_SkinModel (FormValue c "skinModel")
              (set_PreferredLanguage (FormValue c "preferredLanguage")
                 (set_PlayerName (FormValue c "playerName") u)) in
  ∃ w', run (FrontUpdate app o c) w = (None, w')
      ∧ Trace w' = Trace w ++
          [EvSave u'; EvRedirect StatusSeeOther (frontURL app)]
      ∧ First (by_browser_token tok) (DB w') = inr u'
      ∧ PasswordSalt u' = PasswordSalt u
      ∧ PasswordHash u' = PasswordHash u
      ∧ ∀ v, v ∈ DB w → v ≠ u → v ∈ DB w'.
Proof.
  intros Hwf Hc Hne Hfirst Hname Hlang Hpw Hmodel Hsf Hsu Hcf Hcu Hfree u'.
  destruct (First_found _ _ _ Hfirst) as [Hu Htok].
  apply bool_decide_eq_true in Htok.
  assert (Hd : ∀ v, v ∈ DB w → v ≠ u → distinct u v).
  { intros v Hv Hvu. destruct (wf_distinct (DB w) u v Hwf Hu Hv); [|done].
    by subst. }
  destruct (Save_in_place (DB w) u u' Hwf Hu eq_refl) as [Hsave Hrow].
  { intros v Hv Hvu. destruct (Hd v Hv Hvu) as [_ Hclash].
    apply clash_false in Hclash as (Hn & _ & Ht).
    apply clash_false. cbn. repeat split; try done.
    intros Heq. apply (Hfree v Hv Hvu). done. }
  assert (Hrun : run (FrontUpdate app o c) w
                 = (None,
                    log (EvRedirect StatusSeeOther (frontURL app))
                      (log (EvSave u')
                         (with_DB ((λ v, if same_row u' v then u' else v)
                                     <$> DB w) w)))).
  { handler_unfold.
    rewrite Hc, (bool_decide_eq_false_2 _ Hne), Hfirst. cbn.
    rewrite Hname, Hlang. cbn. rewrite (bool_decide_eq_true_2 _ Hpw). cbn.
    rewrite Hmodel. cbn.
    rewrite Hsf, (bool_decide_eq_true_2 _ Hsu). cbn.
    rewrite Hcf, (bool_decide_eq_true_2 _ Hcu). cbn.
    subst u'. cbn in Hsave. rewrite Hsave. reflexivity. }
  eexists. split; [exact Hrun|]. cbn.
  split; [by rewrite <- !app_assoc|]. split; [|split; [done|split; [done|]]].
  - apply (First_replaced _ (DB w) u u'); [done|done| |].
    + by apply bool_decide_eq_true.
    + intros v Hv Hr. apply bool_decide_eq_false.
      assert (v ≠ u) as Hvu.
      { intros ->. apply same_row_false in Hr. by apply Hr. }
      destruct (Hd v Hv Hvu) as [_ Hclash].
      apply clash_false in Hclash as (_ & _ & Ht).
      rewrite same_token_false in Ht. by apply Ht.
  - intros v Hv Hvu. apply list_elem_of_fmap. exists v. split; [|done].
    destruct (same_row u' v) eqn:Hr; [|done].
    by destruct (Hvu (Hrow v Hv Hr)).
Qed.

(** X17. A skin that cannot be used ends the update before anything is
    stored: when the uploaded skin, or the skin downloaded from the given
    URL, fails validation, or the download itself fails, the handler sets
    the matching message and redirects; the table and both blob stores are
    as they were. The message tells a failed download from a rejected
    image. *)
Theorem FrontUpdate_skin_rejected c w tok u msg :
  Cookie_of c "browserToken" = Some tok →
  tok ≠ "" →
  First (by_browser_token tok) (DB w) = inr u →
  IsValidPlayerName (FormValue c "playerName") = true →
  IsValidPreferredLanguage (FormValue c "preferredLanguage") = true →
  password_accepted o c →
  IsValidSkinModel (FormValue c "skinModel") = true →
  (∃ skinFile body e,
      FormFile c "skinFile" = Some skinFile
      ∧ Open skinFile = inr body
      ∧ ValidateSkin app body = inl e
      ∧ msg = "Error using that skin: " +:+ error_Error e)
  ∨ (FormFile c "skinFile" = None
     ∧ FormValue c "skinUrl" ≠ ""
     ∧ ((∃ e, http_Get o (FormValue c "skinUrl") = inl e
              ∧ msg = "Couldn't download skin from that URL.")
        ∨ (∃ body e,
              http_Get o (FormValue c "skinUrl") = inr body
              ∧ ValidateSkin app body = inl e
              ∧ msg = "Error using that skin: " +:+ error_Error e))) →
  ∃ w', run (FrontUpdate app o c) w = (None, w')
      ∧ DB w' = DB w ∧ Skins w' = Skins w ∧ Capes w' = Capes w
      ∧ Trace w' = Trace w ++ password_notice c
          ++ [EvSetCookie {| Name := "errorMessage"; Value := msg;
                             Expires := None |};
              EvRedirect StatusSeeOther (frontURL app)].
Proof.
  intros Hc Hne Hfirst Hname Hlang Hpw Hmodel Hskin.
  assert (Hstart : ∀ k : Request → User → handler Empty_set,
            withBrowserAuthentication app k c w = k c u w).
  { intros k. by apply (withBrowserAuthentication_resolved app k c w tok). }
  unfold FrontUpdate, run. rewrite Hstart.
  handler_unfold. unfold password_notice.
  rewrite Hname, Hlang. cbn.
  destruct Hpw as [Hpw|(Hpw & salt & hash & Hsalt & Hhash)].
  - rewrite (bool_decide_eq_true_2 _ Hpw). cbn. rewrite Hmodel. cbn.
    destruct Hskin as [(fh & body & e & Hsf & Hopen & Hval & ->)
                      |(Hsf & Hsu & [(e & Hget & ->)
                                    |(body & e & Hget & Hval & ->)])].
    + rewrite Hsf. cbn. rewrite Hopen. cbn. rewrite Hval. cbn.
      eexists. split; [reflexivity|]. cbn.
      repeat split; try done; by rewrite <- ?app_assoc.
    + rewrite Hsf, (bool_decide_eq_false_2 _ Hsu). cbn. rewrite Hget. cbn.
      eexists. split; [reflexivity|]. cbn.
      repeat split; try done; by rewrite <- ?app_assoc.
    + rewrite Hsf, (bool_decide_eq_false_2 _ Hsu). cbn.
      rewrite Hget, Hval. cbn.
      eexists. split; [reflexivity|]. cbn.
      repeat split; try done; by rewrite <- ?app_assoc.
  - rewrite (bool_decide_eq_false_2 _ Hpw). cbn.
    destruct (IsValidPassword (FormValue c "password")); cbn;
      rewrite Hsalt; cbn; rewrite Hhash; cbn; rewrite Hmodel; cbn.
    all: destruct Hskin as [(fh & body & e & Hsf & Hopen & Hval & ->)
                           |(Hsf & Hsu & [(e & Hget & ->)
                                         |(body & e & Hget & Hval & ->)])].
    all: try (rewrite Hsf; cbn; rewrite Hopen; cbn; rewrite Hval; cbn).
    all: try (rewrite Hsf, (bool_decide_eq_false_2 _ Hsu); cbn;
              rewrite Hget; cbn; try rewrite Hval; cbn).
    all: (eexists; split; [reflexivity|]); cbn;
         repeat split; try done; by rewrite <- ?app_assoc.
Qed.

(** X18. On the upload path an error is handed back to the caller: when the
    uploaded skin cannot be opened, or opens and validates but the asset
    store fails to take it, the handler returns that very error, writes no
    response and does not save the record (the URL path, by contrast,
    returns nil on a failing store). *)
Theorem FrontUpdate_upload_error_returned c w tok u skinFile e :
  Cookie_of c "browserToken" = Some tok →
  tok ≠ "" →
  First (by_browser_token tok) (DB w) = inr u →
  IsValidPlayerName (FormValue c "playerName") = true →
  IsValidPreferredLanguage (FormValue c "preferredLanguage") = true →
  FormValue c "password" = "" →
  IsValidSkinModel (FormValue c "skinModel") = true →
  FormFile c "skinFile" = Some skinFile →
  Open skinFile = inl e
  ∨ (∃ body img, Open skinFile = inr body
                 ∧ ValidateSkin app body = inr img
                 ∧ SetSkin_fault o = Some e) →
  ∃ w', run (FrontUpdate app o c) w = (Some e, w')
      ∧ DB w' = DB w ∧ Skins w' = Skins w ∧ Capes w' = Capes w
      ∧ ∀ ev, ev ∈ Trace w' → ev ∈ Trace w ∨ ∃ h, ev = EvSetSkin h.
Proof.
  intros Hc Hne Hfirst Hname Hlang Hpw Hmodel Hsf Hfail.
  handler_unfold.
  rewrite Hc, (bool_decide_eq_false_2 _ Hne), Hfirst. cbn.
  rewrite Hname, Hlang. cbn. rewrite (bool_decide_eq_true_2 _ Hpw). cbn.
  rewrite Hmodel. cbn. rewrite Hsf. cbn.
  destruct Hfail as [Hopen|(body & img & Hopen & Hval & Hfault)].
  - rewrite Hopen. cbn. eexists. split; [reflexivity|].
    repeat split; try done. intros ev Hev. by left.
  - rewrite Hopen. cbn. rewrite Hval, Hfault. cbn.
    eexists. split; [reflexivity|]. cbn. repeat split; try done.
    intros ev [Hev| ->%list_elem_of_singleton]%elem_of_app; [by left|].
    right. by eexists.
Qed.

(** X20. Change the password, then log in with it: over a well-formed
    table, an update that brings a non-empty password (and otherwise passes,
    with no skin or cape) stores a fresh 16-byte salt and the hash of the new
    password under it; a login with the account's username and the new
    password then finds the account, accepts the password and issues a
    session cookie. *)
Theorem change_password_then_login c w tok u salt hash (o2 : Oracle) c2 tok2 :
  wf (DB w) →
  Cookie_of c "browserToken" = Some tok →
  tok ≠ "" →
  First (by_browser_token tok) (DB w) = inr u →
  IsValidPlayerName (FormValue c "playerName") = true →
  IsValidPreferredLanguage (FormValue c "preferredLanguage") = true →
  FormValue c "password" ≠ "" →
  rand_Read (salt_entropy o) 16 = inr salt →
  HashPassword (FormValue c "password") salt = inr hash →
  IsValidSkinModel (FormValue c "skinModel") = true →
  FormFile c "skinFile" = None → FormValue c "skinUrl" = "" →
  FormFile c "capeFile" = None → FormValue c "capeUrl" = "" →
  (∀ v, v ∈ DB w → v ≠ u → PlayerName v ≠ FormValue c "playerName") →
  FormValue c2 "username" = Username u →
  FormValue c2 "password" = FormValue c "password" →
  RandomHex (token_entropy o2) 32 = inr tok2 →
  let u' := set_SkinModel (FormValue c "skinModel")
              (set_PasswordHash hash
                 (set_PasswordSalt salt
                    (set_PreferredLanguage (FormValue c "preferredLanguage")
                       (set_PlayerName (FormValue c "playerName") u)))) in
  ∃ w1 w2,
    run (FrontUpdate app o c) w = (None, w1)
    ∧ length salt = 16%nat
    ∧ First (by_username (Username u)) (DB w1) = inr u'
    ∧ run (FrontLogin app o2 c2) w1 = (None, w2)
    ∧ Trace w2 = Trace w1 ++
        [EvSetCookie {| Name := "browserToken"; Value := tok2;
                        Expires := Some (time_Now o2 + hours 24) |};
         EvSave (set_BrowserToken (Some tok2) u');
         EvRedirect StatusSeeOther (frontURL app)].
Proof.
  intros Hwf Hc Hne Hfirst Hname Hlang Hpw Hsalt Hhash Hmodel
    Hsf Hsu Hcf Hcu Hfree Huser Hpass Htok u'.
  destruct (First_found _ _ _ Hfirst) as [Hu _].
  assert (Hd : ∀ v, v ∈ DB w → v ≠ u → distinct u v).
  { intros v Hv Hvu. destruct (wf_distinct (DB w) u v Hwf Hu Hv); [|done].
    by subst. }
  destruct (Save_in_place (DB w) u u' Hwf Hu eq_refl) as [Hsave Hrow].
  { intros v Hv Hvu. destruct (Hd v Hv Hvu) as [_ Hclash].
    apply clash_false in Hclash as (Hn & _ & Ht).
    apply clash_false. cbn. repeat split; try done.
    intros Heq. apply (Hfree v Hv Hvu). done. }
  set (t1 := (λ v, if same_row u' v then u' else v) <$> DB w) in *.
  assert (Hrun : ∃ w1, run (FrontUpdate app o c) w = (None, w1)
                       ∧ DB w1 = t1).
  { handler_unfold.
    rewrite Hc, (bool_decide_eq_false_2 _ Hne), Hfirst. cbn.
    rewrite Hname, Hlang. cbn. rewrite (bool_decide_eq_false_2 _ Hpw). cbn.
    subst u'. cbn in Hsave.
    destruct (IsValidPassword (FormValue c "password")); cbn;
      rewrite Hsalt; cbn; rewrite Hhash; cbn; rewrite Hmodel; cbn;
      rewrite Hsf, (bool_decide_eq_true_2 _ Hsu); cbn;
      rewrite Hcf, (bool_decide_eq_true_2 _ Hcu); cbn;
      rewrite Hsave; cbn; (eexists; split; [reflexivity|done]). }
  destruct Hrun as (w1 & Hrun & Hdb).
  assert (Hfound : First (by_username (Username u)) (DB w1) = inr u').
  { rewrite Hdb. apply (First_replaced _ (DB w) u u'); [done|done| |].
    - by apply bool_decide_eq_true.
    - intros v Hv Hr. apply bool_decide_eq_false.
      assert (v ≠ u) as Hvu.
      { intros ->. apply same_row_false in Hr. by apply Hr. }
      destruct (Hd v Hv Hvu) as [_ Hclash].
      apply clash_false in Hclash as (Hn & _). congruence. }
  destruct (Save (set_BrowserToken (Some tok2) u') (DB w1))
    as [err t2] eqn:Hsave2.
  exists w1. eexists. split; [exact Hrun|].
  split; [by apply (length_rand_Read _ _ _ Hsalt)|].
  split; [exact Hfound|].
  handler_unfold. rewrite Huser, Hfound. cbn. rewrite Hpass.
  change (PasswordSalt u') with salt. rewrite Hhash. cbn.
  unfold bytes_Equal. change (PasswordHash u') with hash.
  rewrite bool_decide_eq_true_2 by done. cbn.
  rewrite Htok. cbn. rewrite Hsave2. cbn.
  split; [reflexivity|]. cbn. by rewrite <- !app_assoc.
Qed.

End WithHelpers.
End ProfileFacts.

(** ** The properties above at concrete requests *)

Module MoreWitnesses.
Import Storage Web Front FrontMore StorageFacts FrontFacts SessionFacts
  ProfileFacts.

Lemma two_accounts_wf : wf (DB two_accounts).
Proof.
  change (wf [Demo.alice; bob]). constructor; [|constructor; constructor].
  constructor; [|constructor]. split; reflexivity.
Qed.

Lemma withBrowserAuthentication_guards_witness :
  ∃ w' evs,
    withBrowserAuthentication demo_app (λ _ _, Ret None) (Demo.signed_in [])
      Demo.empty_world = (Return None, w')
    ∧ DB w' = [] ∧ Skins w' = ∅ ∧ Capes w' = ∅
    ∧ Trace w' = [] ++ evs
        ++ [EvRedirect StatusSeeOther (frontURL demo_app)]
    ∧ (evs = [] ∨ evs = [EvSetCookie clearBrowserToken]).
Proof.
  apply (withBrowserAuthentication_guards demo_app (λ _ _, Ret None)
           (Demo.signed_in []) Demo.empty_world).
  intros tok u _ _. vm_compute. discriminate.
Defined.


Lemma handlers_keep_table_wf_witness :
  wf (DB (run (@FrontUpdate Demo.helpers demo_app (Demo.oracle "uuid-3" x63)
                 (rename_update "bobby")) two_accounts).2).
Proof.
  apply (@handlers_keep_table_wf Demo.helpers demo_app
           (Demo.oracle "uuid-3" x63) (rename_update "bobby") two_accounts).
  exact two_accounts_wf.
Defined.


Lemma register_twice_keeps_table_witness :
  DB (run (@FrontRegister Demo.helpers demo_app (Demo.oracle "uuid-2" x62)
             (Demo.credentials "alice" "other")) Demo.alice_world).2
  = DB Demo.alice_world.
Proof.
  apply (@register_twice_keeps_table Demo.helpers demo_app
           (Demo.oracle "uuid-alice" x61)
           (Demo.credentials "alice" "secret1")
           Demo.empty_world Demo.alice_world (Demo.oracle "uuid-2" x62)
           (Demo.credentials "alice" "other")).
  - vm_compute. reflexivity.
  - vm_compute. discriminate.
  - vm_compute. reflexivity.
Defined.

Lemma FrontRegister_blank_witness :
  run (@FrontRegister Demo.helpers demo_app (Demo.oracle "uuid-2" x62)
         (Demo.credentials "carol" "")) Demo.alice_world
  = (None,
     log (EvString StatusBadRequest "Password cannot be blank!")
       Demo.alice_world).
Proof.
  apply (@FrontRegister_blank Demo.helpers demo_app (Demo.oracle "uuid-2" x62)
           (Demo.credentials "carol" "") Demo.alice_world).
  right. vm_compute. reflexivity.
Defined.

Lemma FrontUpdate_keeps_identity_witness :
  identity <$> DB (run (@FrontUpdate Demo.helpers demo_app
                          (Demo.oracle "uuid-3" x63)
                          Demo.short_password_update) two_accounts).2
  = identity <$> DB two_accounts.
Proof.
  apply (@FrontUpdate_keeps_identity Demo.helpers demo_app
           (Demo.oracle "uuid-3" x63) Demo.short_password_update
           two_accounts).
  exact two_accounts_wf.
Defined.

Lemma FrontLogin_frame_witness :
  forget_token <$> DB (run (@FrontLogin Demo.helpers demo_app
                              (Demo.oracle "uuid-3" x63)
                              (Demo.credentials "bob" "hunter2"))
                         two_accounts).2
  = forget_token <$> DB two_accounts.
Proof.
  apply (@FrontLogin_frame Demo.helpers demo_app (Demo.oracle "uuid-3" x63)
           (Demo.credentials "bob" "hunter2") two_accounts).
  exact two_accounts_wf.
Defined.


Lemma FrontUpdate_name_taken_witness :
  ∃ w', run (@FrontUpdate Demo.helpers demo_app (Demo.oracle "uuid-3" x63)
               (rename_update "bobby")) two_accounts = (None, w')
      ∧ DB w' = DB two_accounts.
Proof.
  destruct (@FrontUpdate_name_taken Demo.helpers demo_app
              (Demo.oracle "uuid-3" x63) (rename_update "bobby")
              two_accounts Demo.alice_token Demo.alice bob)
    as (w' & Hrun & Hdb & _);
    try (vm_compute; reflexivity); try (vm_compute; discriminate).
  - right. left.
  - exists w'. split; [exact Hrun|exact Hdb].
Defined.

Lemma FrontUpdate_stored_witness :
  ∃ w', run (@FrontUpdate Demo.helpers demo_app (Demo.oracle "uuid-3" x63)
               (rename_update "alicia")) two_accounts = (None, w')
      ∧ First (by_browser_token Demo.alice_token) (DB w')
        = inr (set_SkinModel "classic"
                 (set_PreferredLanguage "en"
                    (set_PlayerName "alicia" Demo.alice)))
      ∧ bob ∈ DB w'.
Proof.
  destruct (@FrontUpdate_stored Demo.helpers demo_app
              (Demo.oracle "uuid-3" x63) (rename_update "alicia")
              two_accounts Demo.alice_token Demo.alice)
    as (w' & Hrun & _ & Hfirst & _ & _ & Hothers);
    try (vm_compute; reflexivity); try (vm_compute; discriminate).
  - exact two_accounts_wf.
  - intros v Hv Hne. change (DB two_accounts) with [Demo.alice; bob] in Hv.
    apply elem_of_cons in Hv as [->|Hv]; [done|].
    apply list_elem_of_singleton in Hv as ->. vm_compute. discriminate.
  - exists w'. split; [exact Hrun|]. split; [exact Hfirst|].
    apply Hothers; [right; left|discriminate].
Defined.

Lemma FrontUpdate_skin_rejected_witness :
  ∃ w', run (@FrontUpdate Demo.helpers demo_app (Demo.oracle "uuid-3" x63)
               dead_url_update) two_accounts = (None, w')
      ∧ DB w' = DB two_accounts
      ∧ Skins w' = Skins two_accounts.
Proof.
  destruct (@FrontUpdate_skin_rejected Demo.helpers demo_app
              (Demo.oracle "uuid-3" x63) dead_url_update two_accounts
              Demo.alice_token Demo.alice
              "Couldn't download skin from that URL.")
    as (w' & Hrun & Hdb & Hskins & _);
    try (vm_compute; reflexivity); try (vm_compute; discriminate).
  - left. reflexivity.
  - right. split; [reflexivity|]. split; [vm_compute; discriminate|].
    left. exists (ErrOther "no such host"). split; reflexivity.
  - exists w'. split; [exact Hrun|]. split; [exact Hdb|exact Hskins].
Defined.

Lemma FrontUpdate_upload_error_returned_witness :
  ∃ w', run (@FrontUpdate Demo.helpers demo_app (Demo.oracle "uuid-3" x63)
               broken_upload) two_accounts
        = (Some (ErrOther "unexpected EOF"), w')
      ∧ DB w' = DB two_accounts.
Proof.
  destruct (@FrontUpdate_upload_error_returned Demo.helpers demo_app
              (Demo.oracle "uuid-3" x63) broken_upload two_accounts
              Demo.alice_token Demo.alice
              {| Open := inl (ErrOther "unexpected EOF") |}
              (ErrOther "unexpected EOF"))
    as (w' & Hrun & Hdb & _);
    try (vm_compute; reflexivity); try (vm_compute; discriminate).
  - left. reflexivity.
  - exists w'. split; [exact Hrun|exact Hdb].
Defined.

Lemma lastErrorMessage_once_witness :
  lastErrorMessage (message_request "Incorrect password!") two_accounts
  = (Next "Incorrect password!",
     log (EvSetCookie {| Name := "errorMessage"; Value := "";
                         Expires := None |}) two_accounts).
Proof.
  apply (lastErrorMessage_once (message_request "Incorrect password!")
           two_accounts "Incorrect password!").
  - reflexivity.
  - discriminate.
Defined.

Lemma change_password_then_login_witness :
  ∃ w1 w2,
    run (@FrontUpdate Demo.helpers demo_app (Demo.oracle "uuid-3" x63)
           password_update) two_accounts = (None, w1)
    ∧ run (@FrontLogin Demo.helpers demo_app (Demo.oracle "uuid-4" x64)
             (Demo.credentials "alice" "correct horse")) w1 = (None, w2)
    ∧ Trace w2 = Trace w1 ++
        [EvSetCookie {| Name := "browserToken";
                        Value := hex_encode (repeat x64 32);
                        Expires := Some (1700000000 + hours 24) |};
         EvSave (set_BrowserToken (Some (hex_encode (repeat x64 32)))
                   (set_SkinModel "classic"
                      (set_PasswordHash
                         (repeat x63 16
                            ++ String.list_byte_of_string "correct horse")
                         (set_PasswordSalt (repeat x63 16)
                            (set_PreferredLanguage "en"
                               (set_PlayerName "alice" Demo.alice))))));
         EvRedirect StatusSeeOther (frontURL demo_app)].
Proof.
  destruct (@change_password_then_login Demo.helpers demo_app
              (Demo.oracle "uuid-3" x63) password_update two_accounts
              Demo.alice_token Demo.alice (repeat x63 16)
              (repeat x63 16 ++ String.list_byte_of_string "correct horse")
              (Demo.oracle "uuid-4" x64)
              (Demo.credentials "alice" "correct horse")
              (hex_encode (repeat x64 32)))
    as (w1 & w2 & Hrun & _ & _ & Hlogin & Htrace);
    try (vm_compute; reflexivity); try (vm_compute; discriminate).
  - exact two_accounts_wf.
  - intros v Hv Hne. change (DB two_accounts) with [Demo.alice; bob] in Hv.
    apply elem_of_cons in Hv as [->|Hv]; [done|].
    apply list_elem_of_singleton in Hv as ->. vm_compute. discriminate.
  - exists w1, w2. split; [exact Hrun|]. split; [exact Hlogin|exact Htrace].
Defined.

End MoreWitnesses.
